(** * atlas-server: subscription reconciliation and status query

    A shallow embedding of [index.js]: the Stripe webhook
    ([POST /stripe-webhook]) as a handler and as the route the file
    mounts, its two handlers ([handleSubscriptionCreated],
    [handleSubscriptionCancelled]), the read endpoint
    [GET /api/subscription-status/:walletAddress] and the checkout
    route, over a model of the two PostgreSQL tables declared in
    [createTables].

    Conventions.
    - Instants (JavaScript [Date] time values, [TIMESTAMP WITH TIME ZONE]
      columns) are integers: milliseconds since the Unix epoch.
    - A JavaScript property that can be [undefined]/[null] and a nullable
      SQL column are [option]s; [None] is [undefined]/[null]/[NULL].
    - A Stripe metadata object is a finite map from keys to strings.
    - A string is the UTF-8 encoding of a JavaScript string, one [ascii]
      per byte, and holds no NUL; the database's encoding is UTF-8, so
      that a [VARCHAR(n)] holds [n] characters, not [n] bytes.
    - The server's time zone is a parameter, [JS.TimeZone].
    - The version of Express is a parameter, [express_version]; the
      provider's verifier and the limits of the body parsers are
      parameters as well.
    - Handlers are run one at a time; interleavings of concurrent
      requests are not modelled. A statement of [Sql] reaches the
      database and is answered by it; the status route is also given
      over an arbitrary outcome of its query
      ([subscription_status_over]). *)

From Stdlib Require Import ZArith Ascii String List Bool Lia.
From stdpp Require Import base option list strings gmap.

Open Scope string_scope.
Open Scope list_scope.
Open Scope Z_scope.

(** ** JavaScript values used by the handlers *)

Module JS.

(** The value of a numeric property as the handler can observe it:
    absent, [null], a number, or [NaN]. *)
Inductive number_field : Type :=
| Undefined
| Null
| Num (z : Z)
| NaN.

(** [!!v] for such a property: [undefined], [null], [0] and [NaN] are
    falsy. *)
Definition truthy_number (v : number_field) : bool :=
  match v with
  | Num z => negb (z =? 0)
  | Undefined | Null | NaN => false
  end.

(** The global [isNaN(v)], which first converts [v] to a number:
    [undefined] converts to [NaN], [null] to [0]. *)
Definition isNaN (v : number_field) : bool :=
  match v with
  | Undefined | NaN => true
  | Null | Num _ => false
  end.

(** [!!s] for a string-valued property: [undefined] and the empty
    string are falsy. *)
Definition truthy (s : option string) : bool :=
  match s with
  | Some s => negb (String.eqb s "")
  | None => false
  end.

(** A [Date] object: [Some t] carries the time value [t]; [None] is
    the Invalid Date. *)
Definition Date : Type := option Z.

Definition maxTime : Z := 8640000000000000.

(** ECMAScript [TimeClip]: a time value beyond +-8.64e15 ms yields the
    Invalid Date. *)
Definition TimeClip (t : Z) : Date :=
  if Z.abs t <=? maxTime then Some t else None.

(** [v * k] for an integer constant [k]: [undefined] converts to
    [NaN], [null] to [0]. (Integers are exact as long as the product
    stays below 2^53; every larger product is beyond [maxTime]
    whether rounded or not.) *)
Definition times (v : number_field) (k : Z) : number_field :=
  match v with
  | Num z => Num (z * k)
  | Null => Num 0
  | Undefined | NaN => NaN
  end.

(** [new Date(v)] for a number [v]. *)
Definition newDate (v : number_field) : Date :=
  match v with
  | Num ms => TimeClip ms
  | Null => TimeClip 0
  | Undefined | NaN => None
  end.

(** [new Date(col)] for a [TIMESTAMP WITH TIME ZONE] column as node-pg
    returns it: [null] for [NULL] (giving the epoch), a [Date]
    otherwise (giving a copy). *)
Definition newDate_of_column (col : option Z) : Date :=
  match col with
  | Some t => TimeClip t
  | None => TimeClip 0
  end.

Definition msPerDay : Z := 86400000.

(** The time zone of the process, as ECMAScript's [LocalTZA(t, isUTC)]:
    [utc_offset t] is the offset of local time in force at the UTC
    instant [t]; [local_offset tl] is the offset by which the local
    time value [tl] is read back as an instant. In a zone without clock
    changes both are the same constant. *)
Record TimeZone : Type := {
  utc_offset : Z -> Z;
  local_offset : Z -> Z
}.

(** ECMAScript [LocalTime(t)] and [UTC(tl)]. *)
Definition LocalTime (zone : TimeZone) (t : Z) : Z := t + utc_offset zone t.

Definition UTC (zone : TimeZone) (tl : Z) : Z := tl - local_offset zone tl.

(** [d.setDate(d.getDate() + n)]. [getDate] and [setDate] work on the
    local time value [tl = LocalTime(t)]: the new local time value is
    [MakeDate(MakeDay(year, month, date + n), TimeWithinDay(tl))], and a
    day-of-month beyond the month's end runs on into the following
    months, so that it is [tl + n * msPerDay]: the same wall-clock time
    [n] calendar days later. The result is that local time read back as
    an instant. *)
Definition addDays (zone : TimeZone) (d : Date) (n : Z) : Date :=
  match d with
  | Some t => TimeClip (UTC zone (LocalTime zone t + n * msPerDay))
  | None => None
  end.

(** [a > b] on two [Date]s compares their time values; a comparison
    with the Invalid Date is false. *)
Definition gt (a b : Date) : bool :=
  match a, b with
  | Some x, Some y => y <? x
  | _, _ => false
  end.

End JS.

(** ** Stripe objects, restricted to the properties the code reads *)

(** [customer_details] of a Checkout Session. *)
Record customer_details : Type := {
  email : option string;
  cd_metadata : option (gmap string string)
}.

(** [event.data.object]: a Checkout Session for
    [checkout.session.completed], a Subscription for
    [customer.subscription.deleted] (of which only [id] is read). *)
Record stripe_object : Type := {
  id : option string;
  subscription : option string;
  metadata : option (gmap string string);
  session_customer_details : option customer_details
}.

(** The object returned by [stripe.subscriptions.retrieve]. *)
Record stripe_subscription : Type := {
  sub_id : option string;
  customer : option string;
  status : option string;
  current_period_end : JS.number_field;
  sub_metadata : option (gmap string string)
}.

Record stripe_event : Type := {
  type : string;
  data_object : stripe_object
}.

(** [session.customer_details?.metadata] *)
Definition customer_details_metadata (session : stripe_object)
  : option (gmap string string) :=
  match session_customer_details session with
  | Some cd => cd_metadata cd
  | None => None
  end.

(** [m?.wallet_address] *)
Definition wallet_address_of (m : option (gmap string string)) : option string :=
  match m with
  | Some m => m !! "wallet_address"
  | None => None
  end.

(** ** The store: the two tables of [createTables] *)

Record subscription_row : Type := {
  s_id : Z;
  stripe_customer_id : string;
  stripe_subscription_id : string;
  stripe_session_id : string;
  customer_email : string;
  s_status : string;
  s_current_period_end : option Z;
  s_created_at : option Z;
  s_updated_at : option Z
}.

Record wallet_row : Type := {
  w_id : Z;
  subscription_id : option Z;
  wallet_address : string;
  is_primary : option bool;
  w_created_at : option Z
}.

Record tables : Type := {
  subscriptions : list subscription_row;
  subscription_wallets : list wallet_row
}.

(** The database server: the committed tables and the two [SERIAL]
    sequences. Sequences live outside transactions: a value drawn by
    [nextval] is not given back by [ROLLBACK]. *)
Record server : Type := {
  store : tables;
  subscriptions_id_seq : Z;
  subscription_wallets_id_seq : Z
}.

(** The transaction block of one connection. *)
Inductive txn_state : Type :=
| Idle
| InTxn (work : tables)
| Failed.

Record world : Type := {
  srv : server;
  conn : txn_state
}.

Inductive pg_error : Type :=
| not_null_violation (column : string)
| string_data_right_truncation (column : string)
| unique_violation (constraint : string)
| foreign_key_violation (constraint : string)
| invalid_datetime_format
| datetime_field_overflow
| sequence_generator_limit_exceeded
| in_failed_sql_transaction
| connection_failure.

Inductive error : Type :=
| StripeError
| MissingWallet
| TypeError
| PgError (e : pg_error).

(** ** Asynchronous code: state passing with exceptions

    An [async] function is a state transformer on the [world] that
    either returns a value or throws (its promise rejects). State
    changes made before a throw stay. *)

Inductive result (A : Type) : Type :=
| Ok (a : A)
| Throw (e : error).
Arguments Ok {A} a.
Arguments Throw {A} e.

Definition M (A : Type) : Type := world -> result A * world.

#[global] Instance M_ret : MRet M := fun A a w => (Ok a, w).

#[global] Instance M_bind : MBind M := fun A B f m w =>
  match m w with
  | (Ok a, w') => f a w'
  | (Throw e, w') => (Throw e, w')
  end.

Definition throw {A : Type} (e : error) : M A := fun w => (Throw e, w).

(** [try { body } catch (error) { handler }] *)
Definition try_catch {A : Type} (body : M A) (handler : error -> M A) : M A :=
  fun w =>
    match body w with
    | (Ok a, w') => (Ok a, w')
    | (Throw e, w') => handler e w'
    end.

(** [try { body } finally { cleanup }]: [cleanup] runs on both exits and
    the outcome of [body] is kept unless [cleanup] itself throws. *)
Definition try_finally {A : Type} (body : M A) (cleanup : M unit) : M A :=
  fun w =>
    match body w with
    | (r, w') =>
        match cleanup w' with
        | (Ok _, w'') => (r, w'')
        | (Throw e, w'') => (Throw e, w'')
        end
    end.

(** ** PostgreSQL: column types and statements *)

Module Pg.

Fixpoint all_spaces (s : string) : bool :=
  match s with
  | EmptyString => true
  | String c s' => Ascii.eqb c " "%char && all_spaces s'
  end.

(** A byte that continues a UTF-8 character: [10xxxxxx]. *)
Definition is_continuation (c : ascii) : bool :=
  let n := nat_of_ascii c in (128 <=? n)%nat && (n <? 192)%nat.

(** The number of characters of a UTF-8 string: the bytes that start
    one. *)
Fixpoint char_length (s : string) : nat :=
  match s with
  | EmptyString => O
  | String c s' =>
      if is_continuation c then char_length s' else S (char_length s')
  end.

(** The first [n] characters of a string, and what follows them. *)
Fixpoint take_chars (n : nat) (s : string) : string :=
  match s with
  | EmptyString => EmptyString
  | String c s' =>
      if is_continuation c then String c (take_chars n s')
      else match n with
           | O => EmptyString
           | S n' => String c (take_chars n' s')
           end
  end.

Fixpoint drop_chars (n : nat) (s : string) : string :=
  match s with
  | EmptyString => EmptyString
  | String c s' =>
      if is_continuation c then drop_chars n s'
      else match n with
           | O => s
           | S n' => drop_chars n' s'
           end
  end.

(** Assignment to a [VARCHAR(n)] column, [n] counting characters: a
    longer value is an error unless the excess characters are all
    spaces, in which case it is truncated to [n] characters. [NULL]
    passes. *)
Definition varchar (n : nat) (column : string) (v : option string)
  : pg_error + option string :=
  match v with
  | None => inr None
  | Some s =>
      if (char_length s <=? n)%nat then inr (Some s)
      else if all_spaces (drop_chars n s)
           then inr (Some (take_chars n s))
           else inl (string_data_right_truncation column)
  end.

(** The [NOT NULL] constraint of a column. *)
Definition not_null {A : Type} (column : string) (v : option A) : pg_error + A :=
  match v with
  | Some a => inr a
  | None => inl (not_null_violation column)
  end.

(** The first instant a [TIMESTAMP WITH TIME ZONE] can hold: Julian day
    0, 24 November 4714 BC, 2440588 days before the Unix epoch. (The
    last one, in the year 294276, lies beyond [JS.maxTime].) *)
Definition min_timestamp : Z := -210866803200000.

(** A [Date] parameter bound to a [TIMESTAMP WITH TIME ZONE]: the
    Invalid Date has no valid textual form and is refused, and so is an
    instant before the first the type can hold. *)
Definition timestamptz (d : JS.Date) : pg_error + option Z :=
  match d with
  | Some t =>
      if min_timestamp <=? t then inr (Some t) else inl datetime_field_overflow
  | None => inl invalid_datetime_format
  end.

Definition bind_err {A B : Type} (x : pg_error + A) (f : A -> pg_error + B) : pg_error + B :=
  match x with
  | inl e => inl e
  | inr a => f a
  end.

(** The tables a statement on this connection sees, if it may run. *)
Definition visible (w : world) : option tables :=
  match conn w with
  | Idle => Some (store (srv w))
  | InTxn t => Some t
  | Failed => None
  end.

(** Writing the tables back: into the open transaction, or straight to
    the store when the statement runs on its own (autocommit). *)
Definition write_back (w : world) (t : tables) : world :=
  match conn w with
  | Idle => {| srv := {| store := t;
                         subscriptions_id_seq := subscriptions_id_seq (srv w);
                         subscription_wallets_id_seq := subscription_wallets_id_seq (srv w) |};
               conn := Idle |}
  | InTxn _ => {| srv := srv w; conn := InTxn t |}
  | Failed => w
  end.

(** A failed statement aborts the open transaction block. *)
Definition fail_statement (w : world) : world :=
  match conn w with
  | InTxn _ => {| srv := srv w; conn := Failed |}
  | _ => w
  end.

(** [BEGIN] *)
Definition BEGIN : M unit := fun w =>
  match conn w with
  | Idle => (Ok tt, {| srv := srv w; conn := InTxn (store (srv w)) |})
  | InTxn _ => (Ok tt, w)
  | Failed => (Throw (PgError in_failed_sql_transaction), w)
  end.

(** [COMMIT]: publishes the work of an open transaction; on an aborted
    block it acts as [ROLLBACK]. *)
Definition COMMIT : M unit := fun w =>
  match conn w with
  | InTxn t => (Ok tt, {| srv := {| store := t;
                                    subscriptions_id_seq := subscriptions_id_seq (srv w);
                                    subscription_wallets_id_seq := subscription_wallets_id_seq (srv w) |};
                          conn := Idle |})
  | Idle | Failed => (Ok tt, {| srv := srv w; conn := Idle |})
  end.

(** [ROLLBACK]: discards the work of the transaction block. *)
Definition ROLLBACK : M unit := fun w =>
  (Ok tt, {| srv := srv w; conn := Idle |}).

(** The last value of a [SERIAL] sequence: the key is a 4-byte
    integer. *)
Definition max_serial : Z := 2147483647.

(** [nextval] of the two [SERIAL] sequences; the sequence field holds
    the value to hand out next. Past the last value [nextval] is an
    error and the sequence stays. *)
Definition nextval_subscriptions (w : world) : pg_error + Z * world :=
  if subscriptions_id_seq (srv w) <=? max_serial
  then inr
         (subscriptions_id_seq (srv w),
          {| srv := {| store := store (srv w);
                       subscriptions_id_seq := subscriptions_id_seq (srv w) + 1;
                       subscription_wallets_id_seq :=
                         subscription_wallets_id_seq (srv w) |};
             conn := conn w |})
  else inl sequence_generator_limit_exceeded.

Definition nextval_subscription_wallets (w : world) : pg_error + Z * world :=
  if subscription_wallets_id_seq (srv w) <=? max_serial
  then inr
         (subscription_wallets_id_seq (srv w),
          {| srv := {| store := store (srv w);
                       subscriptions_id_seq := subscriptions_id_seq (srv w);
                       subscription_wallets_id_seq :=
                         subscription_wallets_id_seq (srv w) + 1 |};
             conn := conn w |})
  else inl sequence_generator_limit_exceeded.

End Pg.

(** ** The SQL statements issued by [index.js] *)

Module Sql.
Import Pg.

(** [INSERT INTO subscriptions (stripe_customer_id,
    stripe_subscription_id, stripe_session_id, customer_email, status,
    current_period_end) VALUES ($1, $2, $3, $4, $5, $6) RETURNING id],
    run on the handler's client at database time [now]. [id] comes
    from the sequence, [created_at] and [updated_at] default to
    [NOW()].

    The statement is refused in this order: the timestamp parameter
    when the parameters are bound; a text parameter too long for its
    column when the statement is planned (the sequence is not touched
    then); the end of the sequence; a [NULL] in a [NOT NULL] column when
    the row is formed; a key already present. *)
Definition coerced_subscription_params (p1 p2 p3 p4 p5 : option string)
  : pg_error + option string * option string * option string *
               option string * option string :=
  bind_err (varchar 255 "stripe_customer_id" p1) (fun c1 =>
  bind_err (varchar 255 "stripe_subscription_id" p2) (fun c2 =>
  bind_err (varchar 255 "stripe_session_id" p3) (fun c3 =>
  bind_err (varchar 255 "customer_email" p4) (fun c4 =>
  bind_err (varchar 50 "status" p5) (fun c5 =>
  inr (c1, c2, c3, c4, c5)))))).

Definition constrained_subscription_row (now new_id : Z)
    (cs : option string * option string * option string *
          option string * option string) (p6 : option Z)
  : pg_error + subscription_row :=
  let '(c1, c2, c3, c4, c5) := cs in
  bind_err (not_null "stripe_customer_id" c1) (fun v1 =>
  bind_err (not_null "stripe_subscription_id" c2) (fun v2 =>
  bind_err (not_null "stripe_session_id" c3) (fun v3 =>
  bind_err (not_null "customer_email" c4) (fun v4 =>
  bind_err (not_null "status" c5) (fun v5 =>
  inr {| s_id := new_id;
         stripe_customer_id := v1;
         stripe_subscription_id := v2;
         stripe_session_id := v3;
         customer_email := v4;
         s_status := v5;
         s_current_period_end := p6;
         s_created_at := Some now;
         s_updated_at := Some now |}))))).

(** Both column checks together: the row the statement would store
    under key [new_id]. *)
Definition checked_subscription_row (now new_id : Z)
    (p1 p2 p3 p4 p5 : option string) (p6 : option Z)
  : pg_error + subscription_row :=
  bind_err (coerced_subscription_params p1 p2 p3 p4 p5)
           (fun cs => constrained_subscription_row now new_id cs p6).

Definition insert_subscription (now : Z)
    (p1 p2 p3 p4 p5 : option string) (p6 : JS.Date) : M Z :=
  fun w =>
    match visible w with
    | None => (Throw (PgError in_failed_sql_transaction), w)
    | Some t =>
        match timestamptz p6 with
        | inl e => (Throw (PgError e), fail_statement w)
        | inr period_end =>
            match coerced_subscription_params p1 p2 p3 p4 p5 with
            | inl e => (Throw (PgError e), fail_statement w)
            | inr cs =>
                match nextval_subscriptions w with
                | inl e => (Throw (PgError e), fail_statement w)
                | inr (new_id, w1) =>
                    match constrained_subscription_row now new_id cs period_end with
                    | inl e => (Throw (PgError e), fail_statement w1)
                    | inr row =>
                        if existsb (fun r => s_id r =? new_id) (subscriptions t)
                        then (Throw (PgError (unique_violation "subscriptions_pkey")),
                              fail_statement w1)
                        else (Ok new_id,
                              write_back w1
                                {| subscriptions := subscriptions t ++ [row];
                                   subscription_wallets := subscription_wallets t |})
                    end
                end
            end
        end
    end.

Definition same_link (sid : Z) (addr : string) (r : wallet_row) : bool :=
  match subscription_id r with
  | Some s => (s =? sid) && String.eqb (wallet_address r) addr
  | None => false
  end.

(** [INSERT INTO subscription_wallets (subscription_id, wallet_address,
    is_primary) VALUES ($1, $2, $3)] on the handler's client, refused
    in the same order: width, sequence, [NOT NULL], keys. *)
Definition insert_subscription_wallet (now : Z)
    (p1 : Z) (p2 : option string) (p3 : bool) : M unit :=
  fun w =>
    match visible w with
    | None => (Throw (PgError in_failed_sql_transaction), w)
    | Some t =>
        match varchar 255 "wallet_address" p2 with
        | inl e => (Throw (PgError e), fail_statement w)
        | inr c =>
            match nextval_subscription_wallets w with
            | inl e => (Throw (PgError e), fail_statement w)
            | inr (new_id, w1) =>
                match not_null "wallet_address" c with
                | inl e => (Throw (PgError e), fail_statement w1)
                | inr addr =>
                    if existsb (fun r => w_id r =? new_id) (subscription_wallets t)
                    then (Throw (PgError (unique_violation "subscription_wallets_pkey")),
                          fail_statement w1)
                    else if existsb (same_link p1 addr) (subscription_wallets t)
                    then (Throw (PgError (unique_violation
                            "subscription_wallets_subscription_id_wallet_address_key")),
                          fail_statement w1)
                    else if negb (existsb (fun s => s_id s =? p1) (subscriptions t))
                    then (Throw (PgError (foreign_key_violation
                            "subscription_wallets_subscription_id_fkey")),
                          fail_statement w1)
                    else (Ok tt,
                          write_back w1
                            {| subscriptions := subscriptions t;
                               subscription_wallets :=
                                 subscription_wallets t ++
                                 [{| w_id := new_id;
                                     subscription_id := Some p1;
                                     wallet_address := addr;
                                     is_primary := Some p3;
                                     w_created_at := Some now |}] |})
                end
            end
        end
    end.

(** [column = $1]: never true when the parameter is [NULL]. *)
Definition eq_param (column : string) (p : option string) : bool :=
  match p with
  | Some v => String.eqb column v
  | None => false
  end.

(** [SET status = 'cancelled', updated_at = NOW()] *)
Definition set_cancelled (now : Z) (r : subscription_row) : subscription_row :=
  {| s_id := s_id r;
     stripe_customer_id := stripe_customer_id r;
     stripe_subscription_id := stripe_subscription_id r;
     stripe_session_id := stripe_session_id r;
     customer_email := customer_email r;
     s_status := "cancelled";
     s_current_period_end := s_current_period_end r;
     s_created_at := s_created_at r;
     s_updated_at := Some now |}.

(** [UPDATE t SET ... WHERE cond]: every row satisfying [cond] is
    replaced, in place. *)
Definition update {A : Type} (cond : A -> bool) (set : A -> A) (rows : list A) : list A :=
  map (fun r => if cond r then set r else r) rows.

(** [UPDATE subscriptions SET status = 'cancelled', updated_at = NOW()
    WHERE stripe_subscription_id = $1] through [pool.query]: a
    statement of its own on a pooled connection, committed at once. *)
Definition update_subscription_cancelled (now : Z) (p1 : option string) : M unit :=
  fun w =>
    (Ok tt,
     {| srv := {| store :=
                    {| subscriptions :=
                         update (fun r => eq_param (stripe_subscription_id r) p1)
                                (set_cancelled now)
                                (subscriptions (store (srv w)));
                       subscription_wallets := subscription_wallets (store (srv w)) |};
                  subscriptions_id_seq := subscriptions_id_seq (srv w);
                  subscription_wallets_id_seq := subscription_wallets_id_seq (srv w) |};
        conn := conn w |}).

(** [ORDER BY created_at DESC]: later instants first, [NULL]s before
    all of them. [sorts_before a b] says that key [a] may stand before
    key [b]. *)
Definition sorts_before (a b : option Z) : bool :=
  match a, b with
  | None, _ => true
  | Some _, None => false
  | Some x, Some y => y <=? x
  end.

Fixpoint insert_by_created_at (r : subscription_row) (l : list subscription_row)
  : list subscription_row :=
  match l with
  | [] => [r]
  | r' :: l' =>
      if sorts_before (s_created_at r) (s_created_at r')
      then r :: l
      else r' :: insert_by_created_at r l'
  end.

(** A stable sort; PostgreSQL leaves the order of rows with equal keys
    open, here they keep the order of the scan. *)
Fixpoint order_by_created_at_desc (l : list subscription_row) : list subscription_row :=
  match l with
  | [] => []
  | r :: l' => insert_by_created_at r (order_by_created_at_desc l')
  end.

Definition linked_to (addr : string) (s : subscription_row) (sw : wallet_row) : bool :=
  match subscription_id sw with
  | Some sid => (s_id s =? sid) && String.eqb (wallet_address sw) addr
  | None => false
  end.

(** [FROM subscriptions s INNER JOIN subscription_wallets sw
    ON s.id = sw.subscription_id
    WHERE sw.wallet_address = $1 AND s.status = 'active'] *)
Definition active_joined (t : tables) (p1 : string) : list subscription_row :=
  flat_map
    (fun s =>
       flat_map
         (fun sw =>
            if linked_to p1 s sw && String.eqb (s_status s) "active"
            then [s] else [])
         (subscription_wallets t))
    (subscriptions t).

(** [SELECT s.* ... ORDER BY s.created_at DESC LIMIT 1] through
    [pool.query]: [result.rows]. *)
Definition select_active_subscription (p1 : string) : M (list subscription_row) :=
  fun w =>
    (Ok (firstn 1 (order_by_created_at_desc (active_joined (store (srv w)) p1))), w).

End Sql.

(** ** HTTP responses *)

Inductive json_value : Type :=
| JNull
| JBool (b : bool)
| JString (s : string)
| JDate (t : Z).

(** A response body: plain text, or a JSON object given by its
    properties in the order they are written. *)
Inductive json : Type :=
| Text (s : string)
| JObject (fields : list (string * json_value)).

Record response : Type := {
  http_status : Z;
  body : json
}.

(** [res.json(v)] *)
Definition res_json (v : json) : response := {| http_status := 200; body := v |}.

(** [res.status(c).json(v)] *)
Definition res_status_json (c : Z) (v : json) : response := {| http_status := c; body := v |}.

(** [res.sendStatus(400)] *)
Definition res_sendStatus_400 : response :=
  {| http_status := 400; body := Text "Bad Request" |}.

Definition json_of_timestamp (col : option Z) : json_value :=
  match col with
  | Some t => JDate t
  | None => JNull
  end.

(** [req.body] as a route handler finds it: the value [express.json()]
    parsed from the text of the body (an object or an array, the parser
    being strict), the [Buffer] of the bytes received that
    [express.raw()] leaves, or, when no parser took the body, the empty
    object or [undefined]. *)
Inductive body_value : Type :=
| BodyUnset
| BodyParsed (text : string)
| BodyRaw (bytes : string).

(** A webhook request as the handler sees it: [req.body] and the
    [stripe-signature] header. *)
Record request : Type := {
  req_body : body_value;
  stripe_signature : option string
}.

(** A request as it arrives: whether it has a body of type
    [application/json] (the one type both body parsers of [index.js]
    are mounted for), the bytes of the body, and the signature
    header. *)
Record http_delivery : Type := {
  hd_json : bool;
  hd_payload : string;
  hd_signature : option string
}.

(** What the sender of a request gets back: the response the handler
    sent, the page of Express's final error handler, or nothing at
    all. *)
Inductive observation : Type :=
| Answered (r : response)
| ErrorPage (status : Z)
| NoAnswer.

(** A response with a 2xx status. *)
Definition success (o : observation) : bool :=
  match o with
  | Answered r => (200 <=? http_status r) && (http_status r <? 300)
  | ErrorPage status => (200 <=? status) && (status <? 300)
  | NoAnswer => false
  end.

(** The status of the final error handler's page: the [status] or
    [statusCode] of the error when that is a number from 400 to 599,
    and 500 otherwise. *)
Definition finalhandler_status (of_error : option Z) : Z :=
  match of_error with
  | Some c => if (400 <=? c) && (c <? 600) then c else 500
  | None => 500
  end.

(** What becomes of an [async] route handler whose promise is rejected
    is decided by Express, whose version the sources do not fix:
    version 4 does not look at the promise, so nothing is sent and the
    request stays open until the sender gives up; version 5 passes the
    error on, and with no error middleware in [index.js] the final
    handler answers. *)
Inductive express_version : Type :=
| Express4
| Express5.

(** ** The handlers of [index.js] *)

Section Handlers.

(** [stripe.subscriptions.retrieve]: [None] when the call is rejected. *)
Variable retrieve : option string -> option stripe_subscription.

(** [stripe.webhooks.constructEvent]: [None] when it throws. *)
Variable constructEvent : body_value -> option string -> option string -> option stripe_event.

(** [process.env.STRIPE_WEBHOOK_SECRET] *)
Variable webhookSecret : option string.

(** The time zone the process runs in. *)
Variable zone : JS.TimeZone.

(** The application clock read by [new Date()] and the database clock
    read by [NOW()] while one request is served. *)
Variable jsNow : Z.
Variable pgNow : Z.

(** [pool.connect()]: hands out a pooled connection, which is idle. *)
Definition pool_connect : M unit := fun w =>
  (Ok tt, {| srv := srv w; conn := Idle |}).

(** [client.release()] *)
Definition client_release : M unit := mret tt.

Definition stripe_subscriptions_retrieve (subscriptionId : option string)
  : M stripe_subscription :=
  match retrieve subscriptionId with
  | Some s => mret s
  | None => throw StripeError
  end.

(** Lines 108-114: the value of [walletAddress] when it is logged. *)
Definition walletAddress (stripeSubscription : stripe_subscription)
    (session : stripe_object) : option string :=
  let walletAddress := wallet_address_of (sub_metadata stripeSubscription) in
  let walletAddress :=
    if negb (JS.truthy walletAddress)
    then wallet_address_of (metadata session)
    else walletAddress in
  let walletAddress :=
    if negb (JS.truthy walletAddress)
    then wallet_address_of (customer_details_metadata session)
    else walletAddress in
  walletAddress.

(** Lines 123-132: the value of [periodEndDate]. *)
Definition periodEndDate (stripeSubscription : stripe_subscription) : JS.Date :=
  let currentPeriodEnd := current_period_end stripeSubscription in
  if JS.truthy_number currentPeriodEnd && negb (JS.isNaN currentPeriodEnd)
  then JS.newDate (JS.times currentPeriodEnd 1000)
  else JS.addDays zone (Some jsNow) 30.

Definition handleSubscriptionCreated (session : stripe_object) : M unit :=
  pool_connect ;;
  try_finally
    (try_catch
       (Pg.BEGIN ;;
        let subscriptionId := subscription session in
        stripeSubscription ← stripe_subscriptions_retrieve subscriptionId;
        let walletAddress := walletAddress stripeSubscription session in
        if negb (JS.truthy walletAddress)
        then throw MissingWallet
        else
          let periodEndDate := periodEndDate stripeSubscription in
          customer_details ←
            match session_customer_details session with
            | Some cd => mret cd
            | None => throw TypeError
            end;
          dbSubscriptionId ←
            Sql.insert_subscription pgNow
              (customer stripeSubscription)
              (sub_id stripeSubscription)
              (id session)
              (email customer_details)
              (status stripeSubscription)
              periodEndDate;
          Sql.insert_subscription_wallet pgNow dbSubscriptionId walletAddress true ;;
          Pg.COMMIT)
       (fun error => Pg.ROLLBACK ;; throw error))
    client_release.

Definition handleSubscriptionCancelled (subscription : stripe_object) : M unit :=
  try_catch
    (Sql.update_subscription_cancelled pgNow (id subscription))
    (fun error => throw error).

(** [POST /stripe-webhook]. The route handler is an [async] function:
    [Ok r] is the response it sends, [Throw e] is its promise rejected
    with [e] before any response was sent. *)
Definition stripe_webhook (req : request) : M response :=
  let sig := stripe_signature req in
  match constructEvent (req_body req) sig webhookSecret with
  | None => mret res_sendStatus_400
  | Some event =>
      (if String.eqb (type event) "checkout.session.completed" then
         let session := data_object event in
         handleSubscriptionCreated session
       else if String.eqb (type event) "customer.subscription.deleted" then
         let subscription := data_object event in
         handleSubscriptionCancelled subscription
       else mret tt) ;;
      mret (res_json (JObject [("received", JBool true)]))
  end.

(** [GET /api/subscription-status/:walletAddress], over the outcome
    [query] of its [pool.query]. *)
Definition subscription_status_over (query : string -> M (list subscription_row))
    (walletAddress : string) : M response :=
  try_catch
    (rows ← query walletAddress;
     match rows with
     | subscription :: _ =>
         let now := Some jsNow in
         let periodEnd := JS.newDate_of_column (s_current_period_end subscription) in
         if JS.gt periodEnd now
         then mret (res_json (JObject
                [("hasSubscription", JBool true);
                 ("status", JString "active");
                 ("expiresAt", json_of_timestamp (s_current_period_end subscription));
                 ("customerEmail", JString (customer_email subscription))]))
         else mret (res_json (JObject
                [("hasSubscription", JBool false);
                 ("status", JString "expired");
                 ("message", JString "구독이 만료되었습니다")]))
     | [] =>
         mret (res_json (JObject
                [("hasSubscription", JBool false);
                 ("status", JString "none");
                 ("message", JString "구독이 없습니다")]))
     end)
    (fun error =>
       mret (res_status_json 500 (JObject [("error", JString "Internal Server Error")]))).

(** The route with its query answered by the database. *)
Definition subscription_status : string -> M response :=
  subscription_status_over Sql.select_active_subscription.

End Handlers.

(** ** The webhook route as [index.js] mounts it

    A [POST /stripe-webhook] passes, in this order, the [express.json()]
    mounted for every path (line 18), [express.static] (line 19, which
    lets a [POST] through), the route's own [express.raw] (line 65) and
    then the handler. *)

Section Route.

Variable retrieve : option string -> option stripe_subscription.
Variable constructEvent : body_value -> option string -> option string -> option stripe_event.
Variable webhookSecret : option string.
Variable zone : JS.TimeZone.
Variables jsNow pgNow : Z.

Variable version : express_version.

(** The [status] or [statusCode] a thrown value carries, if it is a
    number. *)
Variable statusCode : error -> option Z.

(** The requests a body parser refuses to read, with the status of the
    error it raises (400 for malformed JSON, 413 for a body over the
    limit, 415 for an unsupported charset or encoding). *)
Variable json_refuses : http_delivery -> option Z.
Variable raw_refuses : http_delivery -> option Z.

(** A body parser of [body-parser]: it leaves alone a request whose
    body has been read already and one that has no body of its type;
    otherwise it reads the body or raises an error. *)
Definition read_body (refuses : http_delivery -> option Z)
    (read : string -> body_value) (d : http_delivery) (body : body_value)
  : Z + body_value :=
  match body with
  | BodyUnset =>
      if hd_json d
      then match refuses d with
           | Some status => inl status
           | None => inr (read (hd_payload d))
           end
      else inr BodyUnset
  | _ => inr body
  end.

(** [express.json()] *)
Definition express_json : http_delivery -> body_value -> Z + body_value :=
  read_body json_refuses BodyParsed.

(** [express.raw({type: 'application/json'})] *)
Definition express_raw : http_delivery -> body_value -> Z + body_value :=
  read_body raw_refuses BodyRaw.

(** What the sender sees of the handler's promise. *)
Definition dispatch (r : result response) : observation :=
  match r with
  | Ok resp => Answered resp
  | Throw e =>
      match version with
      | Express4 => NoAnswer
      | Express5 => ErrorPage (finalhandler_status (statusCode e))
      end
  end.

(** The route. An error raised by a body parser skips the handler and
    is answered by the final error handler, in both versions. *)
Definition post_stripe_webhook (d : http_delivery) (w : world) : observation * world :=
  match express_json d BodyUnset with
  | inl status => (ErrorPage (finalhandler_status (Some status)), w)
  | inr parsed =>
      match express_raw d parsed with
      | inl status => (ErrorPage (finalhandler_status (Some status)), w)
      | inr body =>
          let req := {| req_body := body; stripe_signature := hd_signature d |} in
          let '(r, w') :=
            stripe_webhook retrieve constructEvent webhookSecret zone jsNow pgNow req w in
          (dispatch r, w')
      end
  end.

End Route.

(** * Vocabulary of the properties *)

#[global] Instance subscription_row_eq_dec : EqDecision subscription_row.
Proof. solve_decision. Defined.

(** The Wallet Link row the handler writes for subscription [sid]. *)
Definition primary_link (wid sid : Z) (addr : string) (now : Z) : wallet_row :=
  {| w_id := wid;
     subscription_id := Some sid;
     wallet_address := addr;
     is_primary := Some true;
     w_created_at := Some now |}.

(** The period-end policy in the words of the design: a valid numeric
    timestamp (a number other than [0] and [NaN], in seconds) is
    converted to an instant; anything else gives the default, thirty
    days after the current instant: the same wall-clock time thirty
    calendar days later in the server's time zone. *)
Definition valid_numeric_timestamp (v : JS.number_field) : option Z :=
  match v with
  | JS.Num z => if z =? 0 then None else Some z
  | JS.Undefined | JS.Null | JS.NaN => None
  end.

Definition thirty_days_later (zone : JS.TimeZone) (now : Z) : Z :=
  JS.UTC zone (JS.LocalTime zone now + 30 * JS.msPerDay).

Definition period_end_policy (zone : JS.TimeZone) (now : Z) (v : JS.number_field) : Z :=
  match valid_numeric_timestamp v with
  | Some seconds => seconds * 1000
  | None => thirty_days_later zone now
  end.

(** The three bodies the endpoint answers with. *)
Definition entitled_response (r : subscription_row) : response :=
  res_json (JObject
    [("hasSubscription", JBool true);
     ("status", JString "active");
     ("expiresAt", json_of_timestamp (s_current_period_end r));
     ("customerEmail", JString (customer_email r))]).

Definition expired_response : response :=
  res_json (JObject
    [("hasSubscription", JBool false);
     ("status", JString "expired");
     ("message", JString "구독이 만료되었습니다")]).

Definition none_response : response :=
  res_json (JObject
    [("hasSubscription", JBool false);
     ("status", JString "none");
     ("message", JString "구독이 없습니다")]).

(** The answer to a query that failed. *)
Definition internal_error_response : response :=
  res_status_json 500 (JObject [("error", JString "Internal Server Error")]).

(** The acknowledgement of a webhook delivery. *)
Definition received_response : response :=
  res_json (JObject [("received", JBool true)]).

(** [r] is joined to wallet [addr] through a Wallet Link row of [t]. *)
Definition linked (t : tables) (addr : string) (r : subscription_row) : Prop :=
  exists sw, In sw (subscription_wallets t) /\
             subscription_id sw = Some (s_id r) /\
             wallet_address sw = addr.

(** The reconciliation the webhook runs for a verified event: the
    [switch] of [POST /stripe-webhook]. *)
Definition reconcile (retrieve : option string -> option stripe_subscription)
    (zone : JS.TimeZone) (jsNow pgNow : Z) (event : stripe_event) : M unit :=
  if String.eqb (type event) "checkout.session.completed"
  then handleSubscriptionCreated retrieve zone jsNow pgNow (data_object event)
  else if String.eqb (type event) "customer.subscription.deleted"
  then handleSubscriptionCancelled pgNow (data_object event)
  else mret tt.

(** * A worked scenario

    The example of the design document: a checkout session [cs_1] for
    subscription [sub_1], whose provider object carries the wallet
    [0xABC] in its metadata, reconciled into an empty store. *)

Module Scenario.

Definition session : stripe_object :=
{| id := Some "cs_1";
   subscription := Some "sub_1";
   metadata := None;
   session_customer_details :=
     Some {| email := Some "a@b.com"; cd_metadata := None |} |}.

Definition provider_subscription : stripe_subscription :=
{| sub_id := Some "sub_1";
   customer := Some "cus_1";
   status := Some "active";
   current_period_end := JS.Num 1900000000;
   sub_metadata := Some {[ "wallet_address" := "0xABC" ]} |}.

(** A provider that knows [sub_1] only. *)
Definition retrieve (subscriptionId : option string) : option stripe_subscription :=
match subscriptionId with
| Some i => if String.eqb i "sub_1" then Some provider_subscription else None
| None => None
end.

(** A server running in UTC. *)
Definition zone : JS.TimeZone :=
  {| JS.utc_offset := fun _ => 0; JS.local_offset := fun _ => 0 |}.

Definition jsNow : Z := 1754000000000.
Definition pgNow : Z := 1754000000123.

Definition empty_world : world :=
{| srv := {| store := {| subscriptions := []; subscription_wallets := [] |};
             subscriptions_id_seq := 1;
             subscription_wallets_id_seq := 1 |};
   conn := Idle |}.

Definition stored_subscription : subscription_row :=
{| s_id := 1;
   stripe_customer_id := "cus_1";
   stripe_subscription_id := "sub_1";
   stripe_session_id := "cs_1";
   customer_email := "a@b.com";
   s_status := "active";
   s_current_period_end := Some 1900000000000;
   s_created_at := Some pgNow;
   s_updated_at := Some pgNow |}.

Definition stored_link : wallet_row := primary_link 1 1 "0xABC" pgNow.

(** The world after the checkout completion has been reconciled. *)
Definition after_checkout : world :=
{| srv := {| store := {| subscriptions := [stored_subscription];
                         subscription_wallets := [stored_link] |};
             subscriptions_id_seq := 2;
             subscription_wallets_id_seq := 2 |};
   conn := Idle |}.

(** The same session, now also carrying a different wallet in its own
  metadata. *)
Definition session_with_other_wallet : stripe_object :=
{| id := Some "cs_1";
   subscription := Some "sub_1";
   metadata := Some {[ "wallet_address" := "0xDEF" ]};
   session_customer_details :=
     Some {| email := Some "a@b.com"; cd_metadata := None |} |}.

(** A provider object without any wallet, and a provider returning it. *)
Definition subscription_without_wallet : stripe_subscription :=
{| sub_id := Some "sub_1";
   customer := Some "cus_1";
   status := Some "active";
   current_period_end := JS.Num 1900000000;
   sub_metadata := Some ∅ |}.

Definition retrieve_without_wallet (subscriptionId : option string)
: option stripe_subscription :=
match subscriptionId with
| Some _ => Some subscription_without_wallet
| None => None
end.

(** A provider object whose wallet does not fit [VARCHAR(255)]: the
  first insert passes, the second is refused. *)
Fixpoint repeat_char (c : ascii) (n : nat) : string :=
match n with
| O => EmptyString
| S n' => String c (repeat_char c n')
end.

Definition subscription_with_long_wallet : stripe_subscription :=
{| sub_id := Some "sub_1";
   customer := Some "cus_1";
   status := Some "active";
   current_period_end := JS.Num 1900000000;
   sub_metadata := Some {[ "wallet_address" := repeat_char "f" 256 ]} |}.

Definition retrieve_long_wallet (subscriptionId : option string)
: option stripe_subscription :=
match subscriptionId with
| Some _ => Some subscription_with_long_wallet
| None => None
end.

(** A provider object whose wallet is 100 characters of three bytes
  each: 300 bytes, within [VARCHAR(255)]. *)
Fixpoint repeat_text (s : string) (n : nat) : string :=
match n with
| O => EmptyString
| S n' => s ++ repeat_text s n'
end.

Definition wide_wallet : string := repeat_text "가" 100.

Definition subscription_with_wide_wallet : stripe_subscription :=
{| sub_id := Some "sub_1";
   customer := Some "cus_1";
   status := Some "active";
   current_period_end := JS.Num 1900000000;
   sub_metadata := Some {[ "wallet_address" := wide_wallet ]} |}.

Definition retrieve_wide_wallet (subscriptionId : option string)
: option stripe_subscription :=
match subscriptionId with
| Some _ => Some subscription_with_wide_wallet
| None => None
end.

(** A provider object with period end [0]. *)
Definition subscription_with_zero_period_end : stripe_subscription :=
{| sub_id := Some "sub_1";
   customer := Some "cus_1";
   status := Some "active";
   current_period_end := JS.Num 0;
   sub_metadata := Some {[ "wallet_address" := "0xABC" ]} |}.

(** A provider object without a period end, as the provider's later
  API versions return it, and a provider returning it. *)
Definition subscription_without_period_end : stripe_subscription :=
{| sub_id := Some "sub_1";
   customer := Some "cus_1";
   status := Some "active";
   current_period_end := JS.Undefined;
   sub_metadata := Some {[ "wallet_address" := "0xABC" ]} |}.

Definition retrieve_without_period_end (subscriptionId : option string)
: option stripe_subscription :=
match subscriptionId with
| Some _ => Some subscription_without_period_end
| None => None
end.

(** A server one hour east of UTC that puts its clocks forward by an
  hour at [jsNow] plus ten days. *)
Definition clocks_forward : JS.TimeZone :=
{| JS.utc_offset := fun t => if t <? jsNow + 10 * JS.msPerDay then 3600000 else 7200000;
   JS.local_offset :=
     fun tl => if tl <? jsNow + 10 * JS.msPerDay + 3600000 then 3600000 else 7200000 |}.

(** Cancellation events: for [sub_1] and for an identifier never seen. *)
Definition cancellation : stripe_object :=
{| id := Some "sub_1"; subscription := None; metadata := Some ∅;
   session_customer_details := None |}.

Definition unknown_cancellation : stripe_object :=
{| id := Some "sub_404"; subscription := None; metadata := Some ∅;
   session_customer_details := None |}.

(** A store in which two rows share the external identifier [sub_1]
  and a third belongs to [sub_2]. *)
Definition duplicate_of_stored : subscription_row :=
{| s_id := 2;
   stripe_customer_id := "cus_1";
   stripe_subscription_id := "sub_1";
   stripe_session_id := "cs_1";
   customer_email := "a@b.com";
   s_status := "active";
   s_current_period_end := Some 1900000000000;
   s_created_at := Some (pgNow + 5);
   s_updated_at := Some (pgNow + 5) |}.

Definition other_subscription : subscription_row :=
{| s_id := 3;
   stripe_customer_id := "cus_2";
   stripe_subscription_id := "sub_2";
   stripe_session_id := "cs_2";
   customer_email := "c@d.com";
   s_status := "active";
   s_current_period_end := Some 1900000000000;
   s_created_at := Some (pgNow + 9);
   s_updated_at := Some (pgNow + 9) |}.

Definition with_duplicates : world :=
{| srv := {| store := {| subscriptions :=
                           [stored_subscription; duplicate_of_stored; other_subscription];
                         subscription_wallets :=
                           [stored_link; primary_link 2 2 "0xABC" (pgNow + 5);
                            primary_link 3 3 "0xDEF" (pgNow + 9)] |};
             subscriptions_id_seq := 4;
             subscription_wallets_id_seq := 4 |};
   conn := Idle |}.

(** A webhook delivery of the checkout completion, as a handler that is
  handed the raw bytes sees it. *)
Definition delivery : request :=
{| req_body := BodyRaw "{...}"; stripe_signature := Some "t=1,v1=00" |}.

Definition completed_event : stripe_event :=
{| type := "checkout.session.completed"; data_object := session |}.

(** A verifier that accepts signed raw bytes and nothing else. *)
Definition constructEvent (payload : body_value) (sig secret : option string)
: option stripe_event :=
match payload, sig, secret with
| BodyRaw _, Some _, Some _ => Some completed_event
| _, _, _ => None
end.

(** A query the database does not answer. *)
Definition unanswered (walletAddress : string) : M (list subscription_row) :=
throw (PgError connection_failure).

(** The same delivery as it arrives at the server. *)
Definition arriving : http_delivery :=
{| hd_json := true; hd_payload := "{...}"; hd_signature := Some "t=1,v1=00" |}.

(** Errors carry no status of their own, and the body parsers refuse
  nothing. *)
Definition statusCode (e : error) : option Z := None.
Definition reads_all (d : http_delivery) : option Z := None.

Definition webhookSecret : option string := Some "whsec_test".

(** A clock after the stored period end, and the clock exactly on it. *)
Definition after_period_end : Z := 1900000000001.
Definition at_period_end : Z := 1900000000000.

End Scenario.

(** * The checkout route of [index.js] *)

(** [`${v}`] for a value that may be [undefined]. *)
Definition template_of (v : option string) : string :=
  match v with
  | Some s => s
  | None => "undefined"
  end.

(** The argument of [stripe.checkout.sessions.create]. *)
Record line_item : Type := {
  li_price : string;
  li_quantity : Z
}.

Record checkout_params : Type := {
  payment_method_types : list string;
  line_items : list line_item;
  mode : string;
  success_url : string;
  cancel_url : string;
  subscription_data_metadata : gmap string string
}.

(** A request to the route: the parsed JSON body ([None] when
    [req.body] is [undefined]), restricted to string-valued
    properties; [req.protocol]; [req.get('host')]. *)
Record checkout_request : Type := {
  cr_body : option (gmap string string);
  cr_protocol : string;
  cr_host : option string
}.

Definition default_price : string := "price_1Rr8zCQbNZLwzuc1JKPwJTTX".

(** [POST /create-checkout-session]. [STRIPE_PRICE_ID] is the
    environment variable, [sessions_create] the provider call ([None]
    when it is rejected, otherwise the new session's id). The result is
    the response together with the calls made to the provider, in
    order. Destructuring an [undefined] body throws inside the [try],
    which the [catch] answers with 500. *)
Definition create_checkout_session (STRIPE_PRICE_ID : option string)
    (sessions_create : checkout_params -> option string)
    (req : checkout_request) : response * list checkout_params :=
  match cr_body req with
  | None =>
      (res_status_json 500 (JObject [("error", JString "Internal Server Error")]), [])
  | Some body =>
      let walletAddress := body !! "walletAddress" in
      match walletAddress with
      | Some address =>
          if negb (JS.truthy walletAddress)
          then (res_status_json 400
                  (JObject [("error", JString "지갑 주소가 필요합니다")]), [])
          else
            let params :=
              {| payment_method_types := ["card"];
                 line_items :=
                   [{| li_price := if JS.truthy STRIPE_PRICE_ID
                                   then template_of STRIPE_PRICE_ID
                                   else default_price;
                       li_quantity := 1 |}];
                 mode := "subscription";
                 success_url :=
                   String.append (cr_protocol req)
                     (String.append "://"
                        (String.append (template_of (cr_host req))
                           "/success.html?session_id={CHECKOUT_SESSION_ID}"));
                 cancel_url :=
                   String.append (cr_protocol req)
                     (String.append "://"
                        (String.append (template_of (cr_host req)) "/cancel.html"));
                 subscription_data_metadata := {[ "wallet_address" := address ]} |} in
            match sessions_create params with
            | Some session_id =>
                (res_json (JObject [("sessionId", JString session_id)]), [params])
            | None =>
                (res_status_json 500
                   (JObject [("error", JString "Internal Server Error")]), [params])
            end
      | None =>
          (res_status_json 400
             (JObject [("error", JString "지갑 주소가 필요합니다")]), [])
      end
  end.

(** * Further vocabulary *)

From Stdlib Require Import Sorting.Sorted Sorting.Permutation.

(** [a] may stand before [b] in [ORDER BY created_at DESC]. *)
Definition newer_or_equal (a b : subscription_row) : Prop :=
  Sql.sorts_before (s_created_at a) (s_created_at b) = true.

(** The rows the status query chooses from: the active rows of the
    store joined to the wallet. *)
Definition candidate (t : tables) (addr : string) (r : subscription_row) : Prop :=
  In r (subscriptions t) /\ linked t addr r /\ s_status r = "active".

(** The column widths of [createTables], in characters. *)
Definition subscription_fits (r : subscription_row) : Prop :=
  (Pg.char_length (stripe_customer_id r) <= 255)%nat /\
  (Pg.char_length (stripe_subscription_id r) <= 255)%nat /\
  (Pg.char_length (stripe_session_id r) <= 255)%nat /\
  (Pg.char_length (customer_email r) <= 255)%nat /\
  (Pg.char_length (s_status r) <= 50)%nat.

(** What the schema and the handlers together keep true of the
    database: keys come from the sequences and are unique, every Wallet
    Link names an existing subscription, a (subscription, wallet) pair
    occurs once, values fit their columns; and, beyond the schema, every
    subscription has a primary link and a period end. *)
Record consistent (s : server) : Prop := {
  sub_ids_below_seq :
    forall r, In r (subscriptions (store s)) -> s_id r < subscriptions_id_seq s;
  link_ids_below_seq :
    forall l, In l (subscription_wallets (store s)) ->
              w_id l < subscription_wallets_id_seq s;
  sub_ids_unique : List.NoDup (map s_id (subscriptions (store s)));
  link_ids_unique : List.NoDup (map w_id (subscription_wallets (store s)));
  links_reference :
    forall l, In l (subscription_wallets (store s)) ->
      exists r, In r (subscriptions (store s)) /\ subscription_id l = Some (s_id r);
  link_pairs_unique :
    List.NoDup (map (fun l => (subscription_id l, wallet_address l))
               (subscription_wallets (store s)));
  columns_fit :
    (forall r, In r (subscriptions (store s)) -> subscription_fits r) /\
    (forall l, In l (subscription_wallets (store s)) ->
               (Pg.char_length (wallet_address l) <= 255)%nat);
  every_subscription_linked :
    forall r, In r (subscriptions (store s)) ->
      exists l, In l (subscription_wallets (store s)) /\
                subscription_id l = Some (s_id r) /\ is_primary l = Some true;
  period_end_present :
    forall r, In r (subscriptions (store s)) -> s_current_period_end r <> None
}.

(** How a stored subscription row may differ from an earlier state of
    itself: in [updated_at], and in [status] only by having become
    "cancelled". *)
Definition row_evolves (r r' : subscription_row) : Prop :=
  s_id r' = s_id r /\
  stripe_customer_id r' = stripe_customer_id r /\
  stripe_subscription_id r' = stripe_subscription_id r /\
  stripe_session_id r' = stripe_session_id r /\
  customer_email r' = customer_email r /\
  s_current_period_end r' = s_current_period_end r /\
  s_created_at r' = s_created_at r /\
  (s_status r' = s_status r \/ s_status r' = "cancelled").

(** A later state of the tables: every subscription row is still at its
    place, evolved; every Wallet Link row is still at its place,
    unchanged. *)
Definition tables_evolve (t t' : tables) : Prop :=
  (forall (i : nat) r, subscriptions t !! i = Some r ->
     exists r', subscriptions t' !! i = Some r' /\ row_evolves r r') /\
  (forall (i : nat) l, subscription_wallets t !! i = Some l ->
     subscription_wallets t' !! i = Some l).

(** One webhook delivery with the provider and the clocks at the time
    it is served. *)
Record delivery : Type := {
  d_request : request;
  d_retrieve : option string -> option stripe_subscription;
  d_jsNow : Z;
  d_pgNow : Z
}.

(** The webhook deliveries of a run of the server, served one after
    another. *)
Fixpoint serve_webhooks
    (constructEvent : body_value -> option string -> option string -> option stripe_event)
    (webhookSecret : option string) (zone : JS.TimeZone)
    (ds : list delivery) (w : world) : world :=
  match ds with
  | [] => w
  | d :: ds' =>
      serve_webhooks constructEvent webhookSecret zone ds'
        (snd (stripe_webhook (d_retrieve d) constructEvent webhookSecret zone
                (d_jsNow d) (d_pgNow d) (d_request d) w))
  end.

(** A request arriving at the webhook route, with the provider, the
    clocks and the body parsers' limits at the time it is served. *)
Record arrival : Type := {
  a_delivery : http_delivery;
  a_retrieve : option string -> option stripe_subscription;
  a_jsNow : Z;
  a_pgNow : Z;
  a_json_refuses : http_delivery -> option Z;
  a_raw_refuses : http_delivery -> option Z
}.

(** The requests arriving at the webhook route during a run of the
    server, served one after another: what each sender saw, and the
    world at the end. *)
Fixpoint serve_arrivals
    (constructEvent : body_value -> option string -> option string -> option stripe_event)
    (webhookSecret : option string) (zone : JS.TimeZone)
    (version : express_version) (statusCode : error -> option Z)
    (arrivals : list arrival) (w : world) : list observation * world :=
  match arrivals with
  | [] => ([], w)
  | a :: rest =>
      let '(seen, w') :=
        post_stripe_webhook (a_retrieve a) constructEvent webhookSecret zone
          (a_jsNow a) (a_pgNow a) version statusCode
          (a_json_refuses a) (a_raw_refuses a) (a_delivery a) w in
      let '(later, w'') :=
        serve_arrivals constructEvent webhookSecret zone version statusCode rest w' in
      (seen :: later, w'')
  end.

(** A verifier that accepts nothing but the raw bytes of a body, as the
    provider's library documents it: a body parsed before it reaches
    the handler is refused. *)
Definition verifies_raw_only
    (constructEvent : body_value -> option string -> option string -> option stripe_event)
  : Prop :=
  forall body sig secret,
    (forall bytes, body <> BodyRaw bytes) -> constructEvent body sig secret = None.

(** Further data for the worked scenario: a checkout request for the
    wallet [0xABC], and a provider that hands out session [cs_1]. *)
Module CheckoutScenario.

Definition checkout : checkout_request :=
  {| cr_body := Some {[ "walletAddress" := "0xABC" ]};
     cr_protocol := "https";
     cr_host := Some "atlas.example" |}.

Definition sessions_create (params : checkout_params) : option string := Some "cs_1".

Definition requested : checkout_params :=
  {| payment_method_types := ["card"];
     line_items := [{| li_price := default_price; li_quantity := 1 |}];
     mode := "subscription";
     success_url :=
       "https://atlas.example/success.html?session_id={CHECKOUT_SESSION_ID}";
     cancel_url := "https://atlas.example/cancel.html";
     subscription_data_metadata := {[ "wallet_address" := "0xABC" ]} |}.

End CheckoutScenario.

(** * Properties *)

(** ** Checkout completion: [handleSubscriptionCreated] *)

(** A row that passed the column checks carries the sequence value, the
    bound period end and the statement's [NOW()]. *)
Lemma checked_subscription_row_inr now i p1 p2 p3 p4 p5 p6 row :
  Sql.checked_subscription_row now i p1 p2 p3 p4 p5 p6 = inr row ->
  s_id row = i /\ s_current_period_end row = p6 /\
  s_created_at row = Some now /\ s_updated_at row = Some now /\
  Pg.varchar 255 "stripe_customer_id" p1 = inr (Some (stripe_customer_id row)) /\
  Pg.varchar 255 "stripe_subscription_id" p2 = inr (Some (stripe_subscription_id row)) /\
  Pg.varchar 255 "stripe_session_id" p3 = inr (Some (stripe_session_id row)) /\
  Pg.varchar 255 "customer_email" p4 = inr (Some (customer_email row)) /\
  Pg.varchar 50 "status" p5 = inr (Some (s_status row)).
Proof.
  unfold Sql.checked_subscription_row, Sql.coerced_subscription_params,
    Sql.constrained_subscription_row.
  destruct (Pg.varchar 255 "stripe_customer_id" p1) as [?|[c1|]]; simpl; try discriminate.
  all: destruct (Pg.varchar 255 "stripe_subscription_id" p2) as [?|[c2|]];
    simpl; try discriminate.
  all: destruct (Pg.varchar 255 "stripe_session_id" p3) as [?|[c3|]];
    simpl; try discriminate.
  all: destruct (Pg.varchar 255 "customer_email" p4) as [?|[c4|]];
    simpl; try discriminate.
  all: destruct (Pg.varchar 50 "status" p5) as [?|[c5|]]; simpl; try discriminate.
  intros [= <-]. simpl. repeat split; reflexivity.
Qed.

Lemma timestamptz_TimeClip t pe :
  Pg.timestamptz (JS.TimeClip t) = inr pe -> pe = Some t.
Proof.
  unfold JS.TimeClip. destruct (Z.abs t <=? JS.maxTime); simpl; [|congruence].
  destruct (Pg.min_timestamp <=? t); congruence.
Qed.

(** Unfolds a run of the creation handler down to the provider lookup. *)
Ltac run_created :=
  unfold handleSubscriptionCreated, pool_connect, client_release,
    try_finally, try_catch, stripe_subscriptions_retrieve, throw;
  unfold mbind, M_bind, mret, M_ret; simpl.

(** Walks through a run step by step, in the order in which it can
    fail; [tac] closes every goal in which the run has thrown, and the
    goal of the run that returns is left, with one equation per step. *)
Ltac walk_created retrieve zone jsNow session w tac :=
  run_created;
  destruct (retrieve (subscription session)) as [sub|] eqn:Hr; simpl;
    [|solve [tac]];
  destruct (JS.truthy (walletAddress sub session)) eqn:Hw; simpl; [|solve [tac]];
  destruct (session_customer_details session) as [cd|] eqn:Hcd; simpl;
    [|solve [tac]];
  unfold Sql.insert_subscription; simpl;
  destruct (Pg.timestamptz (periodEndDate zone jsNow sub)) as [e|pe] eqn:Hpe;
    simpl; [solve [tac]|];
  destruct (Sql.coerced_subscription_params _ _ _ _ _) as [e|cs] eqn:Hco;
    simpl; [solve [tac]|];
  unfold Pg.nextval_subscriptions; simpl;
  destruct (subscriptions_id_seq (srv w) <=? Pg.max_serial) eqn:Hseq;
    simpl; [|solve [tac]];
  destruct (Sql.constrained_subscription_row _ _ _ _) as [e|row] eqn:Hcons;
    simpl; [solve [tac]|];
  destruct (existsb (fun r => s_id r =? subscriptions_id_seq (srv w))
                    (subscriptions (store (srv w)))) eqn:Hpk;
    simpl; [solve [tac]|];
  unfold Sql.insert_subscription_wallet; simpl;
  destruct (Pg.varchar 255 "wallet_address" _) as [e|c] eqn:Hwc;
    simpl; [solve [tac]|];
  unfold Pg.nextval_subscription_wallets; simpl;
  destruct (subscription_wallets_id_seq (srv w) <=? Pg.max_serial) eqn:Hwseq;
    simpl; [|solve [tac]];
  destruct (Pg.not_null "wallet_address" c) as [e|addr] eqn:Haddr;
    simpl; [solve [tac]|];
  destruct (existsb (fun r => w_id r =? subscription_wallets_id_seq (srv w))
                    (subscription_wallets (store (srv w)))) eqn:Hwpk;
    simpl; [solve [tac]|];
  destruct (existsb (Sql.same_link (subscriptions_id_seq (srv w)) addr)
                    (subscription_wallets (store (srv w)))) eqn:Hwuq;
    simpl; [solve [tac]|];
  destruct (existsb (fun s => s_id s =? subscriptions_id_seq (srv w))
                    (subscriptions (store (srv w)) ++ [row])) eqn:Hfk;
    simpl; [|solve [tac]].

(** The two column checks of the subscription insert, put together. *)
Lemma checked_subscription_row_stages now i p1 p2 p3 p4 p5 p6 cs row :
  Sql.coerced_subscription_params p1 p2 p3 p4 p5 = inr cs ->
  Sql.constrained_subscription_row now i cs p6 = inr row ->
  Sql.checked_subscription_row now i p1 p2 p3 p4 p5 p6 = inr row.
Proof. intros H1 H2. unfold Sql.checked_subscription_row. by rewrite H1. Qed.

Lemma wallet_param_stages v c addr :
  Pg.varchar 255 "wallet_address" v = inr c ->
  Pg.not_null "wallet_address" c = inr addr ->
  Pg.bind_err (Pg.varchar 255 "wallet_address" v) (Pg.not_null "wallet_address") = inr addr.
Proof. intros H1 H2. by rewrite H1. Qed.

Section Created.

Variable retrieve : option string -> option stripe_subscription.
Variable zone : JS.TimeZone.
Variables jsNow pgNow : Z.

Local Abbreviation run session w :=
  (handleSubscriptionCreated retrieve zone jsNow pgNow session w).

(** One case analysis of a whole run. The client always goes back to
    the pool with no transaction open. A run that returns normally
    passed every step and left the old rows followed by the two new
    ones; a run that throws left the committed tables as they were. *)
Lemma handleSubscriptionCreated_run session w :
  conn (snd (run session w)) = Idle /\
  match fst (run session w) with
  | Ok _ =>
      exists sub cd period_end row addr,
        retrieve (subscription session) = Some sub /\
        JS.truthy (walletAddress sub session) = true /\
        session_customer_details session = Some cd /\
        Pg.timestamptz (periodEndDate zone jsNow sub) = inr period_end /\
        Sql.checked_subscription_row pgNow (subscriptions_id_seq (srv w))
          (customer sub) (sub_id sub) (id session) (email cd) (status sub)
          period_end = inr row /\
        Pg.bind_err (Pg.varchar 255 "wallet_address" (walletAddress sub session))
                    (Pg.not_null "wallet_address") = inr addr /\
        store (srv (snd (run session w))) =
          {| subscriptions := subscriptions (store (srv w)) ++ [row];
             subscription_wallets :=
               subscription_wallets (store (srv w)) ++
               [primary_link (subscription_wallets_id_seq (srv w))
                             (subscriptions_id_seq (srv w)) addr pgNow] |}
  | Throw _ => store (srv (snd (run session w))) = store (srv w)
  end.
Proof.
  walk_created retrieve zone jsNow session w ltac:(done).
  split; [done|]. exists sub, cd, pe, row, addr.
  pose proof (checked_subscription_row_stages pgNow _ _ _ _ _ _ _ _ _ Hco Hcons).
  pose proof (wallet_param_stages _ _ _ Hwc Haddr). done.
Qed.

(** C1. A checkout-completion event that is reconciled adds exactly
    one Subscription row and exactly one Wallet Link row, the link
    naming the new subscription and marked primary; the two inserts
    run between [BEGIN] and [COMMIT], and a run in which any step
    throws (either insert included) is rolled back: the committed
    tables are exactly what they were, so neither row persists. *)
Theorem created_one_subscription_one_link_or_nothing session w :
  match fst (run session w) with
  | Ok _ =>
      exists s l,
        subscriptions (store (srv (snd (run session w)))) =
          subscriptions (store (srv w)) ++ [s] /\
        subscription_wallets (store (srv (snd (run session w)))) =
          subscription_wallets (store (srv w)) ++ [l] /\
        subscription_id l = Some (s_id s) /\
        is_primary l = Some true
  | Throw _ =>
      store (srv (snd (run session w))) = store (srv w)
  end.
Proof.
  destruct (handleSubscriptionCreated_run session w) as [_ H].
  destruct (fst (run session w)); [|exact H].
  destruct H as (sub & cd & pe & row & addr & _ & _ & _ & _ & Hrow & _ & ->).
  apply checked_subscription_row_inr in Hrow as (Hid & _).
  eexists _, _. simpl. repeat split. simpl. by rewrite Hid.
Qed.

(** Both inserts act on the transaction's working copy only: up to
    [COMMIT] the committed tables do not change. *)
Lemma inserts_invisible_before_commit work p1 p2 p3 p4 p5 p6 sid a w :
  conn w = InTxn work ->
  store (srv (snd (Sql.insert_subscription pgNow p1 p2 p3 p4 p5 p6 w))) = store (srv w) /\
  store (srv (snd (Sql.insert_subscription_wallet pgNow sid a true w))) = store (srv w).
Proof.
  intros Hc. unfold Sql.insert_subscription, Sql.insert_subscription_wallet,
    Pg.visible, Pg.write_back, Pg.fail_statement,
    Pg.nextval_subscriptions, Pg.nextval_subscription_wallets.
  simpl. rewrite Hc. split.
  - destruct (Pg.timestamptz p6); simpl; [done|].
    destruct (Sql.coerced_subscription_params _ _ _ _ _); simpl; [done|].
    destruct (subscriptions_id_seq (srv w) <=? Pg.max_serial);
      simpl; rewrite ?Hc; [|done].
    destruct (Sql.constrained_subscription_row _ _ _ _); simpl; [done|].
    destruct (existsb _ _); done.
  - destruct (Pg.varchar _ _ _); simpl; [done|].
    destruct (subscription_wallets_id_seq (srv w) <=? Pg.max_serial);
      simpl; rewrite ?Hc; [|done].
    destruct (Pg.not_null _ _); simpl; [done|].
    repeat (destruct (existsb _ _); simpl; try done).
Qed.

(** Two of the ways a reconciliation fails: the provider lookup is
    rejected, or an insert is refused by the database. Each makes the
    handler throw and leaves the committed tables alone. *)
Lemma provider_lookup_failure_throws session w :
  retrieve (subscription session) = None ->
  fst (run session w) = Throw StripeError /\ srv (snd (run session w)) = srv w.
Proof.
  intros Hr.
  run_created. by rewrite Hr.
Qed.

Lemma subscription_insert_failure_throws session sub cd period_end e w :
  retrieve (subscription session) = Some sub ->
  JS.truthy (walletAddress sub session) = true ->
  session_customer_details session = Some cd ->
  Pg.timestamptz (periodEndDate zone jsNow sub) = inr period_end ->
  Sql.coerced_subscription_params
    (customer sub) (sub_id sub) (id session) (email cd) (status sub) = inl e ->
  fst (run session w) = Throw (PgError e) /\
  srv (snd (run session w)) = srv w.
Proof.
  intros Hr Hw Hcd Hpe Hrow.
  run_created. rewrite Hr. simpl.
  rewrite Hw. simpl. rewrite Hcd. simpl.
  unfold Sql.insert_subscription. simpl. rewrite Hpe. simpl. by rewrite Hrow.
Qed.

Lemma checked_subscription_row_split now i p1 p2 p3 p4 p5 p6 row :
  Sql.checked_subscription_row now i p1 p2 p3 p4 p5 p6 = inr row ->
  exists cs, Sql.coerced_subscription_params p1 p2 p3 p4 p5 = inr cs /\
             Sql.constrained_subscription_row now i cs p6 = inr row.
Proof.
  unfold Sql.checked_subscription_row.
  destruct (Sql.coerced_subscription_params p1 p2 p3 p4 p5) as [e|cs]; [done|].
  simpl. by exists cs.
Qed.

Lemma wallet_insert_failure_throws session sub cd period_end row e w :
  retrieve (subscription session) = Some sub ->
  JS.truthy (walletAddress sub session) = true ->
  session_customer_details session = Some cd ->
  Pg.timestamptz (periodEndDate zone jsNow sub) = inr period_end ->
  subscriptions_id_seq (srv w) <= Pg.max_serial ->
  Sql.checked_subscription_row pgNow (subscriptions_id_seq (srv w))
    (customer sub) (sub_id sub) (id session) (email cd) (status sub)
    period_end = inr row ->
  Pg.varchar 255 "wallet_address" (walletAddress sub session) = inl e ->
  (fst (run session w) = Throw (PgError e) \/
   fst (run session w) = Throw (PgError (unique_violation "subscriptions_pkey"))) /\
  store (srv (snd (run session w))) = store (srv w) /\
  subscription_wallets_id_seq (srv (snd (run session w))) =
    subscription_wallets_id_seq (srv w).
Proof.
  intros Hr Hw Hcd Hpe Hseq Hrow Haddr.
  apply checked_subscription_row_split in Hrow as (cs & Hco & Hcons).
  apply Z.leb_le in Hseq.
  run_created. rewrite Hr. simpl.
  rewrite Hw. simpl. rewrite Hcd. simpl.
  unfold Sql.insert_subscription, Pg.nextval_subscriptions. simpl.
  rewrite Hpe. simpl. rewrite Hco. simpl. rewrite Hseq. simpl. rewrite Hcons.
  destruct (existsb _ _); simpl; [auto|].
  unfold Sql.insert_subscription_wallet. simpl. rewrite Haddr. simpl. auto.
Qed.

(** C3. Wallet resolution is a fixed priority chain: subscription
    metadata, then session metadata, then the session's
    customer-details metadata. The first non-empty value is the
    result whatever the later sources hold (a different session does
    not change it), and when subscription-level and session-level
    metadata carry different addresses the subscription-level one is
    chosen. *)
Theorem wallet_resolution_priority sub session :
  let a1 := wallet_address_of (sub_metadata sub) in
  let a2 := wallet_address_of (metadata session) in
  let a3 := wallet_address_of (customer_details_metadata session) in
  walletAddress sub session =
    (if JS.truthy a1 then a1 else if JS.truthy a2 then a2 else a3) /\
  (forall session', JS.truthy a1 = true -> walletAddress sub session' = a1) /\
  (forall cd', JS.truthy a1 = false -> JS.truthy a2 = true ->
     walletAddress sub
       {| id := id session; subscription := subscription session;
          metadata := metadata session; session_customer_details := cd' |} = a2) /\
  (forall x y, a1 = Some x -> a2 = Some y -> x <> "" -> x <> y ->
     walletAddress sub session = Some x).
Proof.
  assert (forall ses, walletAddress sub ses =
            if JS.truthy (wallet_address_of (sub_metadata sub))
            then wallet_address_of (sub_metadata sub)
            else if JS.truthy (wallet_address_of (metadata ses))
                 then wallet_address_of (metadata ses)
                 else wallet_address_of (customer_details_metadata ses)) as chain.
  { intros ses. unfold walletAddress.
    destruct (JS.truthy (wallet_address_of (sub_metadata sub))) eqn:H1;
      simpl; rewrite ?H1; simpl; [done|].
    by destruct (JS.truthy (wallet_address_of (metadata ses))). }
  simpl. repeat split.
  - apply chain.
  - intros session' H1. by rewrite chain, H1.
  - intros cd' H1 H2. rewrite chain, H1. simpl. by rewrite H2.
  - intros x y H1 _ Hx _. rewrite chain, H1. simpl.
    by destruct (String.eqb_spec x "").
Qed.

(** C4. When the fetched subscription object and the session carry no
    wallet address (absent or empty) in any of the three locations,
    reconciliation throws the missing-wallet error; no Subscription
    row and no Wallet Link row is created: the server state is what
    it was. *)
Theorem missing_wallet_aborts session sub w :
  retrieve (subscription session) = Some sub ->
  JS.truthy (wallet_address_of (sub_metadata sub)) = false ->
  JS.truthy (wallet_address_of (metadata session)) = false ->
  JS.truthy (wallet_address_of (customer_details_metadata session)) = false ->
  fst (run session w) = Throw MissingWallet /\
  srv (snd (run session w)) = srv w /\
  subscriptions (store (srv (snd (run session w)))) = subscriptions (store (srv w)) /\
  subscription_wallets (store (srv (snd (run session w)))) =
    subscription_wallets (store (srv w)).
Proof.
  intros Hr H1 H2 H3.
  run_created. rewrite Hr. simpl.
  assert (JS.truthy (walletAddress sub session) = false) as ->.
  { unfold walletAddress. rewrite H1. simpl. rewrite H2. simpl. exact H3. }
  simpl. done.
Qed.

(** The date the handler computes is the one the policy names, whatever
    the provider's object holds. *)
Lemma periodEndDate_policy sub :
  periodEndDate zone jsNow sub =
  JS.TimeClip (period_end_policy zone jsNow (current_period_end sub)).
Proof.
  unfold periodEndDate, period_end_policy, valid_numeric_timestamp, thirty_days_later.
  destruct (current_period_end sub) as [| |z|]; simpl; try reflexivity.
  destruct (z =? 0); reflexivity.
Qed.

(** C7. The period end the handler computes is the provider's
    timestamp converted from seconds when the retrieved subscription
    carries a valid one (a number other than 0 and NaN), and otherwise
    the default: the same wall-clock time thirty calendar days after
    the current instant in the server's time zone, which is the
    current instant plus 30 * 86400000 ms when the zone's offset does
    not change, and differs from that by at most twice the largest
    offset otherwise. The default is a date the database stores
    whenever it lies in the range of the JavaScript [Date] and of the
    timestamp column. A reconciled checkout completion has stored
    exactly that instant: the created row is never left without an
    expiry. *)
Theorem created_period_end session sub w :
  retrieve (subscription session) = Some sub ->
  let policy := period_end_policy zone jsNow (current_period_end sub) in
  let default := thirty_days_later zone jsNow in
  periodEndDate zone jsNow sub = JS.TimeClip policy /\
  (forall seconds, current_period_end sub = JS.Num seconds -> seconds <> 0 ->
     policy = seconds * 1000) /\
  (valid_numeric_timestamp (current_period_end sub) = None -> policy = default) /\
  (forall offset,
     (forall t, JS.utc_offset zone t = offset) ->
     (forall t, JS.local_offset zone t = offset) ->
     default = jsNow + 30 * JS.msPerDay) /\
  (forall bound,
     (forall t, Z.abs (JS.utc_offset zone t) <= bound) ->
     (forall t, Z.abs (JS.local_offset zone t) <= bound) ->
     Z.abs (default - (jsNow + 30 * JS.msPerDay)) <= 2 * bound) /\
  (Z.abs policy <= JS.maxTime -> Pg.min_timestamp <= policy ->
     Pg.timestamptz (periodEndDate zone jsNow sub) = inr (Some policy)) /\
  (forall u, fst (run session w) = Ok u ->
     exists s,
       subscriptions (store (srv (snd (run session w)))) =
         subscriptions (store (srv w)) ++ [s] /\
       s_current_period_end s = Some policy /\
       s_current_period_end s <> None).
Proof.
  intros Hr policy default. split; [apply periodEndDate_policy|].
  split.
  { intros seconds Hs Hne. unfold policy, period_end_policy, valid_numeric_timestamp.
    rewrite Hs. by destruct (Z.eqb_spec seconds 0). }
  split.
  { intros Hv. unfold policy, period_end_policy. by rewrite Hv. }
  split.
  { intros offset H1 H2. unfold default, thirty_days_later, JS.UTC, JS.LocalTime.
    rewrite H1, H2. lia. }
  split.
  { intros bound H1 H2. unfold default, thirty_days_later, JS.UTC, JS.LocalTime.
    specialize (H1 jsNow).
    specialize (H2 (jsNow + JS.utc_offset zone jsNow + 30 * JS.msPerDay)). lia. }
  split.
  { intros Hmax Hmin. rewrite periodEndDate_policy. fold policy.
    unfold JS.TimeClip, Pg.timestamptz.
    destruct (Z.leb_spec (Z.abs policy) JS.maxTime); [|lia].
    by destruct (Z.leb_spec Pg.min_timestamp policy); [|lia]. }
  intros u Hok.
  destruct (handleSubscriptionCreated_run session w) as [_ H].
  rewrite Hok in H.
  destruct H as (sub' & cd & pe & row & addr & Hr' & _ & _ & Hpe & Hrow & _ & ->).
  assert (sub' = sub) as -> by congruence.
  apply checked_subscription_row_inr in Hrow as (_ & Hend & _).
  exists row. simpl. split; [done|]. rewrite Hend.
  rewrite periodEndDate_policy in Hpe. apply timestamptz_TimeClip in Hpe.
  by rewrite Hpe.
Qed.

End Created.

(** ** Cancellation: [handleSubscriptionCancelled] *)

Lemma eq_param_spec column p : Sql.eq_param column p = true <-> Some column = p.
Proof.
  destruct p as [v|]; simpl; [|split; discriminate].
  destruct (String.eqb_spec column v); split; congruence.
Qed.

Lemma update_lookup {A : Type} (cond : A -> bool) (set : A -> A) (rows : list A) (i : nat) :
  Sql.update cond set rows !! i = (fun r => if cond r then set r else r) <$> rows !! i.
Proof. unfold Sql.update. apply list_lookup_fmap. Qed.

Lemma update_no_match {A : Type} (cond : A -> bool) (set : A -> A) (rows : list A) :
  (forall r, In r rows -> cond r = false) -> Sql.update cond set rows = rows.
Proof.
  unfold Sql.update. induction rows as [|r rows IH]; intros H; simpl; [done|].
  rewrite (H r) by (by left). f_equal. apply IH. intros r' Hr'. apply H. by right.
Qed.

(** The handler is one [UPDATE]; it never throws. *)
Lemma handleSubscriptionCancelled_run now ev w :
  handleSubscriptionCancelled now ev w =
  Sql.update_subscription_cancelled now (id ev) w.
Proof.
  unfold handleSubscriptionCancelled, try_catch, Sql.update_subscription_cancelled.
  reflexivity.
Qed.

(** C5. A stored active subscription whose external identifier is the
    one in a cancellation event has status "cancelled" after the event
    is processed, and delivering the identical event again (at any later
    database time) succeeds as well and leaves the status "cancelled". *)
Theorem cancellation_idempotent now1 now2 ev w (i : nat) r :
  subscriptions (store (srv w)) !! i = Some r ->
  s_status r = "active" ->
  id ev = Some (stripe_subscription_id r) ->
  let first := handleSubscriptionCancelled now1 ev w in
  let second := handleSubscriptionCancelled now2 ev (snd first) in
  fst first = Ok tt /\
  (exists r1, subscriptions (store (srv (snd first))) !! i = Some r1 /\
              s_id r1 = s_id r /\ s_status r1 = "cancelled") /\
  fst second = Ok tt /\
  (exists r2, subscriptions (store (srv (snd second))) !! i = Some r2 /\
              s_id r2 = s_id r /\ s_status r2 = "cancelled") /\
  map s_status (subscriptions (store (srv (snd second)))) =
    map s_status (subscriptions (store (srv (snd first)))).
Proof.
  intros Hi _ Hid. cbv zeta. rewrite !handleSubscriptionCancelled_run.
  unfold Sql.update_subscription_cancelled. simpl.
  assert (Sql.eq_param (stripe_subscription_id r) (id ev) = true) as Hm
    by (apply eq_param_spec; congruence).
  repeat split.
  - exists (Sql.set_cancelled now1 r). rewrite update_lookup, Hi. simpl.
    by rewrite Hm.
  - exists (Sql.set_cancelled now2 (Sql.set_cancelled now1 r)).
    rewrite !update_lookup, Hi. simpl. rewrite Hm. simpl. by rewrite Hm.
  - unfold Sql.update. rewrite !map_map. apply map_ext. intros a.
    destruct (Sql.eq_param (stripe_subscription_id a) (id ev)) eqn:Ha; simpl;
      rewrite Ha; reflexivity.
Qed.

(** C6. A cancellation event whose external identifier matches no stored
    subscription row (or that carries none) is processed successfully
    and changes nothing: no row is created or altered. *)
Theorem cancellation_unknown_is_noop now ev w :
  (forall r, In r (subscriptions (store (srv w))) ->
             Some (stripe_subscription_id r) <> id ev) ->
  handleSubscriptionCancelled now ev w = (Ok tt, w).
Proof.
  intros H. rewrite handleSubscriptionCancelled_run.
  unfold Sql.update_subscription_cancelled. rewrite update_no_match.
  - by destruct w as [[[subs wallets] s1 s2] c].
  - intros r Hr. destruct (Sql.eq_param _ _) eqn:E; [|done].
    apply eq_param_spec in E. by apply H in Hr.
Qed.

(** C9. Processing a cancellation event rewrites every subscription row
    whose external identifier matches the event, duplicates included:
    each becomes "cancelled" with a fresh updated-at and keeps all its
    other columns. Rows with another identifier, the order and number
    of rows, the Wallet Link table and the sequences are unchanged. *)
Theorem cancellation_frame now ev w :
  let w' := snd (handleSubscriptionCancelled now ev w) in
  length (subscriptions (store (srv w'))) = length (subscriptions (store (srv w))) /\
  (forall (i : nat) r,
     subscriptions (store (srv w)) !! i = Some r ->
     Some (stripe_subscription_id r) = id ev ->
     exists r',
       subscriptions (store (srv w')) !! i = Some r' /\
       s_status r' = "cancelled" /\
       s_updated_at r' = Some now /\
       s_id r' = s_id r /\
       stripe_customer_id r' = stripe_customer_id r /\
       stripe_subscription_id r' = stripe_subscription_id r /\
       stripe_session_id r' = stripe_session_id r /\
       customer_email r' = customer_email r /\
       s_current_period_end r' = s_current_period_end r /\
       s_created_at r' = s_created_at r) /\
  (forall (i : nat) r,
     subscriptions (store (srv w)) !! i = Some r ->
     Some (stripe_subscription_id r) <> id ev ->
     subscriptions (store (srv w')) !! i = Some r) /\
  subscription_wallets (store (srv w')) = subscription_wallets (store (srv w)) /\
  subscriptions_id_seq (srv w') = subscriptions_id_seq (srv w) /\
  subscription_wallets_id_seq (srv w') = subscription_wallets_id_seq (srv w) /\
  conn w' = conn w.
Proof.
  cbv zeta. rewrite handleSubscriptionCancelled_run.
  unfold Sql.update_subscription_cancelled. simpl. repeat split.
  - unfold Sql.update. apply length_map.
  - intros i r Hi Hid. exists (Sql.set_cancelled now r).
    rewrite update_lookup, Hi. simpl.
    apply eq_param_spec in Hid. by rewrite Hid.
  - intros i r Hi Hid. rewrite update_lookup, Hi. simpl.
    destruct (Sql.eq_param _ _) eqn:E; [|done].
    by apply eq_param_spec in E.
Qed.

(** ** Status query: [GET /api/subscription-status/:walletAddress] *)

Lemma linked_to_spec addr s sw :
  Sql.linked_to addr s sw = true <->
  subscription_id sw = Some (s_id s) /\ wallet_address sw = addr.
Proof.
  unfold Sql.linked_to. destruct (subscription_id sw) as [sid|]; [|split; [done|by intros []]].
  rewrite andb_true_iff, Z.eqb_eq, String.eqb_eq. split.
  - intros [-> ->]. done.
  - intros [[= ->] ->]. done.
Qed.

Lemma active_joined_In t addr s :
  In s (Sql.active_joined t addr) <->
  In s (subscriptions t) /\ linked t addr s /\ s_status s = "active".
Proof.
  unfold Sql.active_joined, linked. rewrite in_flat_map. split.
  - intros (s0 & Hs0 & Hin). apply in_flat_map in Hin as (sw & Hsw & Hin).
    destruct (Sql.linked_to addr s0 sw && String.eqb (s_status s0) "active") eqn:E;
      [|done].
    destruct Hin as [->|[]]. apply andb_true_iff in E as [E1 E2].
    apply linked_to_spec in E1. apply String.eqb_eq in E2. eauto.
  - intros (Hs & (sw & Hsw & H1 & H2) & Hst). exists s. split; [done|].
    apply in_flat_map. exists sw. split; [done|].
    assert (Sql.linked_to addr s sw = true) as -> by (by apply linked_to_spec).
    apply String.eqb_eq in Hst. rewrite Hst. by left.
Qed.

Lemma insert_by_created_at_In r l x :
  In x (Sql.insert_by_created_at r l) <-> x = r \/ In x l.
Proof.
  induction l as [|y l IH]; simpl; [intuition congruence|].
  destruct (Sql.sorts_before _ _); simpl; [intuition congruence|].
  rewrite IH. intuition congruence.
Qed.

Lemma order_by_created_at_desc_In l x :
  In x (Sql.order_by_created_at_desc l) <-> In x l.
Proof.
  induction l as [|y l IH]; simpl; [done|].
  rewrite insert_by_created_at_In, IH. intuition congruence.
Qed.

Lemma sorts_before_refl a : Sql.sorts_before a a = true.
Proof. destruct a; simpl; [lia|done]. Qed.

Lemma sorts_before_total a b :
  Sql.sorts_before a b = false -> Sql.sorts_before b a = true.
Proof. destruct a, b; simpl; try done; lia. Qed.

(** A row that no other row of the list may stand before comes out
    first. *)
Lemma order_by_created_at_desc_first l r :
  In r l ->
  (forall r', In r' l -> r' <> r ->
     Sql.sorts_before (s_created_at r') (s_created_at r) = false) ->
  exists tl, Sql.order_by_created_at_desc l = r :: tl.
Proof.
  induction l as [|x l IH]; simpl; [done|]. intros Hin Hnew.
  destruct (decide (x = r)) as [->|Hx].
  - destruct (Sql.order_by_created_at_desc l) as [|y tl] eqn:E; simpl; [by eexists|].
    assert (In y l) as Hy by (apply order_by_created_at_desc_In; rewrite E; by left).
    destruct (decide (y = r)) as [->|Hyr].
    + rewrite sorts_before_refl. by eexists.
    + rewrite sorts_before_total by (apply Hnew; auto). by eexists.
  - destruct Hin as [?|Hin]; [done|].
    destruct IH as [tl ->]; [done|intros; apply Hnew; auto|]. simpl.
    rewrite Hnew by auto. by eexists.
Qed.

Lemma subscription_status_run now addr w :
  subscription_status now addr w =
  (Ok match firstn 1 (Sql.order_by_created_at_desc
                        (Sql.active_joined (store (srv w)) addr)) with
      | r :: _ =>
          if JS.gt (JS.newDate_of_column (s_current_period_end r)) (Some now)
          then entitled_response r
          else expired_response
      | [] => none_response
      end, w).
Proof.
  unfold subscription_status, subscription_status_over, try_catch,
    Sql.select_active_subscription.
  unfold mbind, M_bind, mret, M_ret.
  destruct (firstn 1 _) as [|r ?]; [done|].
  by destruct (JS.gt _ _).
Qed.

(** The row the query returns is an active row of the store joined to
    the wallet. *)
Lemma selected_row_active t addr r tl :
  firstn 1 (Sql.order_by_created_at_desc (Sql.active_joined t addr)) = r :: tl ->
  In r (subscriptions t) /\ linked t addr r /\ s_status r = "active".
Proof.
  intros H. apply active_joined_In, order_by_created_at_desc_In.
  destruct (Sql.order_by_created_at_desc _) as [|x l]; [done|].
  simpl in H. injection H as -> _. by left.
Qed.

Lemma gt_newDate_of_column col now :
  JS.gt (JS.newDate_of_column col) (Some now) = true <->
  let t := match col with Some t => t | None => 0 end in
  now < t /\ Z.abs t <= JS.maxTime.
Proof.
  unfold JS.newDate_of_column, JS.TimeClip. destruct col as [t|]; simpl.
  - destruct (Z.leb_spec (Z.abs t) JS.maxTime); simpl; [|split; [done|lia]].
    rewrite Z.ltb_lt. lia.
  - rewrite Z.ltb_lt. unfold JS.maxTime. lia.
Qed.

(** C2. When the most recently created subscription row linked to a
    wallet is stored as "active" but its period end lies in the past at
    query time, the status query answers
    [{hasSubscription: false, status: "expired"}]. And whenever the
    query does report an entitlement for the wallet, at any clock, an
    active linked row exists whose period end was compared with that
    clock and found later: the stored status alone never suffices. *)
Theorem stale_active_row_reported_expired now addr w r c e :
  In r (subscriptions (store (srv w))) ->
  linked (store (srv w)) addr r ->
  s_status r = "active" ->
  s_created_at r = Some c ->
  (forall r', In r' (subscriptions (store (srv w))) ->
              linked (store (srv w)) addr r' -> r' <> r ->
              exists c', s_created_at r' = Some c' /\ c' < c) ->
  s_current_period_end r = Some e ->
  e < now ->
  fst (subscription_status now addr w) = Ok expired_response /\
  (forall now' fields,
     fst (subscription_status now' addr w) = Ok (res_json (JObject fields)) ->
     In ("hasSubscription", JBool true) fields ->
     exists r0, In r0 (subscriptions (store (srv w))) /\
                linked (store (srv w)) addr r0 /\
                s_status r0 = "active" /\
                JS.gt (JS.newDate_of_column (s_current_period_end r0)) (Some now') = true).
Proof.
  intros Hin Hlink Hact Hc Hnewest He Hpast. split.
  - rewrite subscription_status_run. simpl.
    destruct (order_by_created_at_desc_first
                (Sql.active_joined (store (srv w)) addr) r) as [tl ->].
    + by apply active_joined_In.
    + intros r' Hr' Hne. apply active_joined_In in Hr' as (H1 & H2 & _).
      destruct (Hnewest r' H1 H2 Hne) as (c' & -> & Hlt). rewrite Hc. simpl. lia.
    + simpl. rewrite He.
      destruct (JS.gt _ _) eqn:E; [|done].
      apply gt_newDate_of_column in E. simpl in E. lia.
  - intros now' fields. rewrite subscription_status_run. simpl.
    destruct (firstn 1 _) as [|r0 tl] eqn:Hsel.
    + intros [= <-]. simpl. intuition congruence.
    + apply selected_row_active in Hsel as (H1 & H2 & H3).
      destruct (JS.gt _ _) eqn:E.
      * intros _ _. by exists r0.
      * intros [= <-]. simpl. intuition congruence.
Qed.

(** C10. The comparison is strict. For the row the query returns, and a
    clock not before the Unix epoch, the endpoint reports an
    entitlement exactly when the stored period end is a valid instant
    strictly later than the clock; in every other case it reports
    "expired", in particular when the period end equals the current
    instant and when it is absent ([NULL]). *)
Theorem entitlement_comparison_strict now addr w r :
  0 <= now ->
  fst (Sql.select_active_subscription addr w) = Ok [r] ->
  (fst (subscription_status now addr w) = Ok (entitled_response r) <->
   exists e, s_current_period_end r = Some e /\ now < e /\ e <= JS.maxTime) /\
  (fst (subscription_status now addr w) <> Ok (entitled_response r) ->
   fst (subscription_status now addr w) = Ok expired_response) /\
  (s_current_period_end r = Some now ->
   fst (subscription_status now addr w) = Ok expired_response) /\
  (s_current_period_end r = None ->
   fst (subscription_status now addr w) = Ok expired_response).
Proof.
  intros Hnow Hsel. unfold Sql.select_active_subscription in Hsel. simpl in Hsel.
  injection Hsel as Hsel.
  rewrite subscription_status_run. simpl. rewrite Hsel.
  destruct (JS.gt _ _) eqn:E.
  - apply gt_newDate_of_column in E.
    repeat split; try done.
    + intros _. destruct (s_current_period_end r) as [e|]; simpl in E; [|lia].
      exists e. split; [done|lia].
    + intros He. rewrite He in E. simpl in E. lia.
    + intros He. rewrite He in E. simpl in E. lia.
  - repeat split; try done.
    intros (e & He & Hlt & Hmax).
    assert (JS.gt (JS.newDate_of_column (s_current_period_end r)) (Some now) = true)
      as E'; [|congruence].
    apply gt_newDate_of_column. rewrite He. simpl. lia.
Qed.

(** ** Webhook: [POST /stripe-webhook] *)

Section Webhook.

Variable retrieve : option string -> option stripe_subscription.
Variable constructEvent : body_value -> option string -> option string -> option stripe_event.
Variable webhookSecret : option string.
Variable zone : JS.TimeZone.
Variables jsNow pgNow : Z.

Lemma stripe_webhook_verified req event w :
  constructEvent (req_body req) (stripe_signature req) webhookSecret = Some event ->
  stripe_webhook retrieve constructEvent webhookSecret zone jsNow pgNow req w =
  match reconcile retrieve zone jsNow pgNow event w with
  | (Ok _, w') => (Ok (res_json (JObject [("received", JBool true)])), w')
  | (Throw e, w') => (Throw e, w')
  end.
Proof.
  intros H. unfold stripe_webhook, reconcile. rewrite H.
  unfold mbind, M_bind, mret, M_ret.
  destruct (String.eqb _ _); [done|]. by destruct (String.eqb _ _).
Qed.

Variable version : express_version.
Variable statusCode : error -> option Z.
Variables json_refuses raw_refuses : http_delivery -> option Z.

Local Abbreviation handler req w :=
  (stripe_webhook retrieve constructEvent webhookSecret zone jsNow pgNow req w).

Local Abbreviation route d w :=
  (post_stripe_webhook retrieve constructEvent webhookSecret zone jsNow pgNow
     version statusCode json_refuses raw_refuses d w).

(** The final error handler never answers with a 2xx status. *)
Lemma finalhandler_status_range c : 400 <= finalhandler_status c < 600.
Proof.
  unfold finalhandler_status. destruct c as [c|]; [|lia].
  destruct (Z.leb_spec 400 c); simpl; [|lia].
  destruct (Z.ltb_spec c 600); lia.
Qed.

Lemma error_page_not_success c : success (ErrorPage (finalhandler_status c)) = false.
Proof.
  pose proof (finalhandler_status_range c). simpl.
  destruct (Z.ltb_spec (finalhandler_status c) 300); [lia|]. apply andb_false_r.
Qed.

(** The body that reaches the handler is never the raw bytes: whatever
    [express.raw] would read, [express.json] has read before it. *)
Lemma body_never_raw d :
  match express_json json_refuses d BodyUnset with
  | inl status => json_refuses d = Some status
  | inr parsed =>
      express_raw raw_refuses d parsed = inr parsed /\
      forall bytes, parsed <> BodyRaw bytes
  end.
Proof.
  unfold express_json, express_raw, read_body.
  destruct (hd_json d); [|done].
  by destruct (json_refuses d).
Qed.

(** With a verifier that accepts raw bytes only, the route answers
    every request with a 4xx or 5xx status and leaves the world as it
    was. *)
Lemma post_stripe_webhook_refuses d w :
  verifies_raw_only constructEvent ->
  route d w = (Answered res_sendStatus_400, w) \/
  exists status,
    json_refuses d = Some status /\
    route d w = (ErrorPage (finalhandler_status (Some status)), w).
Proof.
  intros Hraw. unfold post_stripe_webhook.
  pose proof (body_never_raw d) as H.
  destruct (express_json json_refuses d BodyUnset) as [status|parsed].
  - right. by exists status.
  - destruct H as [-> Hnot]. left.
    unfold stripe_webhook. simpl. by rewrite (Hraw parsed _ _ Hnot).
Qed.


End Webhook.

(** * Further properties *)

(** ** The status query's selection *)

Lemma sorts_before_trans a b c :
  Sql.sorts_before a b = true -> Sql.sorts_before b c = true ->
  Sql.sorts_before a c = true.
Proof. destruct a, b, c; simpl; try done; lia. Qed.

Lemma insert_by_created_at_Permutation r l :
  Permutation (Sql.insert_by_created_at r l) (r :: l).
Proof.
  induction l as [|x l IH]; simpl; [done|].
  destruct (Sql.sorts_before _ _); [done|].
  rewrite IH. apply perm_swap.
Qed.

Lemma insert_by_created_at_sorted r l :
  StronglySorted newer_or_equal l ->
  StronglySorted newer_or_equal (Sql.insert_by_created_at r l).
Proof.
  induction 1 as [|x l Hl IH Hx]; simpl.
  - repeat constructor.
  - destruct (Sql.sorts_before (s_created_at r) (s_created_at x)) eqn:E.
    + constructor; [by constructor|]. constructor; [done|].
      eapply Forall_impl; [exact Hx|]. intros y Hy.
      eapply sorts_before_trans; [exact E|exact Hy].
    + constructor; [done|].
      eapply Permutation_Forall; [symmetry; apply insert_by_created_at_Permutation|].
      constructor; [|done]. by apply sorts_before_total.
Qed.

(** [ORDER BY created_at DESC] rearranges the joined rows without
    losing or adding any, and in the result every row stands before all
    rows that are not newer than it ([NULL] creation times first). *)
Lemma order_by_created_at_desc_sorts l :
  Permutation (Sql.order_by_created_at_desc l) l /\
  StronglySorted newer_or_equal (Sql.order_by_created_at_desc l).
Proof.
  induction l as [|x l [IHp IHs]]; simpl; [split; [done|constructor]|]. split.
  - rewrite insert_by_created_at_Permutation. by constructor.
  - by apply insert_by_created_at_sorted.
Qed.

Lemma order_by_created_at_desc_head l r tl :
  Sql.order_by_created_at_desc l = r :: tl ->
  In r l /\ forall r', In r' l -> newer_or_equal r r'.
Proof.
  intros E. destruct (order_by_created_at_desc_sorts l) as [Hp Hs].
  rewrite E in Hp, Hs. split.
  - eapply Permutation_in; [exact Hp|by left].
  - intros r' Hr'. apply (Permutation_in _ (Permutation_sym Hp)) in Hr'.
    destruct Hr' as [->|Hr']; [apply sorts_before_refl|].
    apply StronglySorted_inv in Hs as [_ Hall].
    rewrite List.Forall_forall in Hall. by apply Hall.
Qed.

Lemma select_active_subscription_run addr w :
  Sql.select_active_subscription addr w =
  (Ok (firstn 1 (Sql.order_by_created_at_desc
                   (Sql.active_joined (store (srv w)) addr))), w).
Proof. reflexivity. Qed.

(** X1. The row the status query returns is a candidate (an active row
    of the store joined to the wallet) and no candidate was created
    later: a candidate with a known creation time is never newer than
    the returned row's. The query returns at most one row and changes
    nothing. *)
Theorem selected_row_is_latest_candidate addr w r rest :
  fst (Sql.select_active_subscription addr w) = Ok (r :: rest) ->
  rest = [] /\
  snd (Sql.select_active_subscription addr w) = w /\
  candidate (store (srv w)) addr r /\
  (forall r', candidate (store (srv w)) addr r' -> newer_or_equal r r') /\
  (forall r' c c', candidate (store (srv w)) addr r' ->
     s_created_at r = Some c -> s_created_at r' = Some c' -> c' <= c).
Proof.
  rewrite select_active_subscription_run. simpl. intros [= Hsel].
  destruct (Sql.order_by_created_at_desc _) as [|x l] eqn:E; [done|].
  simpl in Hsel. injection Hsel as -> <-.
  apply order_by_created_at_desc_head in E as [Hin Hmax].
  assert (forall r', candidate (store (srv w)) addr r' -> newer_or_equal r r') as Hnew.
  { intros r' Hr'. apply Hmax. by apply active_joined_In. }
  repeat split; try done; try (by apply active_joined_In in Hin as (? & ? & ?)).
  intros r' c c' Hr' Hc Hc'. specialize (Hnew r' Hr').
  unfold newer_or_equal in Hnew. rewrite Hc, Hc' in Hnew. simpl in Hnew. lia.
Qed.

(** One case analysis of the status route over the outcome of its
    query. *)
Lemma subscription_status_over_run now query addr w :
  subscription_status_over now query addr w =
  match query addr w with
  | (Ok rows, w') =>
      (Ok match rows with
          | r :: _ =>
              if JS.gt (JS.newDate_of_column (s_current_period_end r)) (Some now)
              then entitled_response r
              else expired_response
          | [] => none_response
          end, w')
  | (Throw _, w') => (Ok internal_error_response, w')
  end.
Proof.
  unfold subscription_status_over, try_catch. unfold mbind, M_bind, mret, M_ret.
  destruct (query addr w) as [[[|r ?]|e] w']; simpl; try done.
  by destruct (JS.gt _ _).
Qed.

(** X2. The status endpoint never throws. When its query is rejected
    it answers 500 with the body [{error: "Internal Server Error"}];
    when the query returns it answers 200, and "none" exactly when no
    row came back. When the query is answered from the store, "none" is
    the answer exactly when the store holds no active subscription row
    joined to the wallet, and the store is left as it was. *)
Theorem status_none_iff_no_candidate query now addr w :
  (forall e, fst (subscription_status_over now query addr w) <> Throw e) /\
  (forall e, fst (query addr w) = Throw e ->
     subscription_status_over now query addr w =
     (Ok internal_error_response, snd (query addr w))) /\
  (forall rows, fst (query addr w) = Ok rows ->
     (fst (subscription_status_over now query addr w) = Ok none_response <-> rows = []) /\
     (exists resp, fst (subscription_status_over now query addr w) = Ok resp /\
                   http_status resp = 200) /\
     snd (subscription_status_over now query addr w) = snd (query addr w)) /\
  (query addr w = Sql.select_active_subscription addr w ->
     (fst (subscription_status_over now query addr w) = Ok none_response <->
      forall r, ~ candidate (store (srv w)) addr r) /\
     snd (subscription_status_over now query addr w) = w).
Proof.
  rewrite subscription_status_over_run.
  destruct (query addr w) as [[rows|e0] w0] eqn:Q; simpl.
  - assert ((match rows with
             | [] => none_response
             | r :: _ =>
                 if JS.gt (JS.newDate_of_column (s_current_period_end r)) (Some now)
                 then entitled_response r
                 else expired_response
             end = none_response <-> rows = []) /\
            http_status (match rows with
                         | [] => none_response
                         | r :: _ =>
                             if JS.gt (JS.newDate_of_column (s_current_period_end r))
                                      (Some now)
                             then entitled_response r
                             else expired_response
                         end) = 200) as [Hnone H200].
    { destruct rows as [|r ?]; [done|]. by destruct (JS.gt _ _). }
    split; [done|]. split; [done|]. split.
    + intros rows' [= <-]. split; [|split; [by eexists|done]].
      rewrite <- Hnone. split; congruence.
    + intros H. rewrite select_active_subscription_run in H. injection H as -> ->.
      split; [|done].
      split.
      * intros [= Hr]. apply Hnone in Hr.
        intros r Hc. apply active_joined_In, order_by_created_at_desc_In in Hc.
        destruct (Sql.order_by_created_at_desc _); [done|]. done.
      * intros Hn. f_equal. apply Hnone.
        destruct (Sql.order_by_created_at_desc _) as [|x l] eqn:E; [done|].
        apply order_by_created_at_desc_head in E as [Hin _].
        apply active_joined_In in Hin. by destruct (Hn x).
  - repeat split; done.
Qed.

(** ** Cancellation seen through the status query *)

Lemma subscription_status_no_candidate now addr w :
  (forall r, ~ candidate (store (srv w)) addr r) ->
  subscription_status now addr w = (Ok none_response, w).
Proof.
  intros H. rewrite subscription_status_run.
  destruct (Sql.order_by_created_at_desc _) as [|x l] eqn:E; [done|].
  apply order_by_created_at_desc_head in E as [Hin _].
  apply active_joined_In in Hin. by destruct (H x).
Qed.

Lemma update_In {A : Type} (cond : A -> bool) (set : A -> A) (rows : list A) (r' : A) :
  In r' (Sql.update cond set rows) ->
  exists r, In r rows /\ ((cond r = true /\ r' = set r) \/ (cond r = false /\ r' = r)).
Proof.
  unfold Sql.update. rewrite in_map_iff. intros (r & <- & Hr). exists r.
  split; [done|]. destruct (cond r); auto.
Qed.

Lemma handleSubscriptionCancelled_store now ev w :
  store (srv (snd (handleSubscriptionCancelled now ev w))) =
  {| subscriptions :=
       Sql.update (fun r => Sql.eq_param (stripe_subscription_id r) (id ev))
                  (Sql.set_cancelled now) (subscriptions (store (srv w)));
     subscription_wallets := subscription_wallets (store (srv w)) |}.
Proof. by rewrite handleSubscriptionCancelled_run. Qed.

(** X3. After a cancellation event for an external identifier, a wallet
    all of whose active subscriptions carried that identifier has no
    subscription any more: the status endpoint answers "none" for it,
    at any clock. *)
Theorem cancelled_wallet_reports_none now now' ev sid addr w :
  id ev = Some sid ->
  (forall r, candidate (store (srv w)) addr r -> stripe_subscription_id r = sid) ->
  fst (subscription_status now' addr (snd (handleSubscriptionCancelled now ev w))) =
  Ok none_response.
Proof.
  intros Hid Hall. rewrite subscription_status_no_candidate; [done|].
  intros r' (Hin & (sw & Hsw & Hl1 & Hl2) & Hact).
  rewrite handleSubscriptionCancelled_store in Hin, Hsw. simpl in Hin, Hsw.
  apply update_In in Hin as (r & Hr & [[_ ->]|[Hc ->]]); [done|].
  assert (candidate (store (srv w)) addr r) as Hcand.
  { split; [done|]. split; [|done]. by exists sw. }
  apply Hall in Hcand. rewrite Hid, <- Hcand in Hc. simpl in Hc.
  by rewrite String.eqb_refl in Hc.
Qed.

Lemma flat_map_unlinked addr s (b : bool) (x : subscription_row) ws :
  (forall sw, In sw ws -> Sql.linked_to addr s sw = false) ->
  flat_map (fun sw => if Sql.linked_to addr s sw && b then [x] else []) ws = [].
Proof.
  induction ws as [|sw ws IH]; intros H; simpl; [done|].
  rewrite (H sw) by (by left). simpl. apply IH. intros; apply H. by right.
Qed.

Lemma active_joined_update now p t addr :
  (forall r, In r (subscriptions t) -> linked t addr r ->
             Sql.eq_param (stripe_subscription_id r) p = false) ->
  Sql.active_joined
    {| subscriptions :=
         Sql.update (fun r => Sql.eq_param (stripe_subscription_id r) p)
                    (Sql.set_cancelled now) (subscriptions t);
       subscription_wallets := subscription_wallets t |} addr =
  Sql.active_joined t addr.
Proof.
  unfold Sql.active_joined, linked. simpl.
  generalize (subscription_wallets t) as ws. intros ws.
  induction (subscriptions t) as [|r rows IH]; intros H; simpl; [done|].
  rewrite IH by (intros r0 Hr0 Hl; apply H; [by right|done]). f_equal.
  destruct (Sql.eq_param (stripe_subscription_id r) p) eqn:E; [|done].
  assert (forall sw, In sw ws -> Sql.linked_to addr r sw = false) as Hno.
  { intros sw Hsw. destruct (Sql.linked_to addr r sw) eqn:El; [|done].
    apply linked_to_spec in El as [H1 H2].
    rewrite H in E; [done|by left|by exists sw]. }
  rewrite (flat_map_unlinked addr r _ r ws Hno).
  apply (flat_map_unlinked addr (Sql.set_cancelled now r)). exact Hno.
Qed.

(** X4. A cancellation event does not change what the status endpoint
    answers for a wallet none of whose subscriptions carries the
    event's external identifier. *)
Theorem cancellation_leaves_other_wallets now now' ev addr w :
  (forall r, In r (subscriptions (store (srv w))) ->
             linked (store (srv w)) addr r ->
             Some (stripe_subscription_id r) <> id ev) ->
  fst (subscription_status now' addr (snd (handleSubscriptionCancelled now ev w))) =
  fst (subscription_status now' addr w).
Proof.
  intros H. rewrite !subscription_status_run. cbn [fst].
  rewrite handleSubscriptionCancelled_store, active_joined_update; [done|].
  intros r Hr Hl. destruct (Sql.eq_param _ _) eqn:E; [|done].
  apply eq_param_spec in E. by destruct (H r Hr Hl).
Qed.

(** ** Column values *)

Lemma char_length_take_chars n s : (Pg.char_length (Pg.take_chars n s) <= n)%nat.
Proof.
  revert n. induction s as [|c s IH]; intros n; simpl; [lia|].
  destruct (Pg.is_continuation c) eqn:E; simpl; rewrite ?E; [apply IH|].
  destruct n as [|n]; simpl; [lia|]. rewrite E. specialize (IH n). lia.
Qed.


Lemma varchar_fits n column v s :
  Pg.varchar n column v = inr (Some s) -> (Pg.char_length s <= n)%nat.
Proof.
  unfold Pg.varchar. destruct v as [x|]; [|done].
  destruct (Nat.leb_spec (Pg.char_length x) n).
  - by intros [= <-].
  - destruct (Pg.all_spaces _); [|done]. intros [= <-]. apply char_length_take_chars.
Qed.

Lemma varchar_short n column s :
  (Pg.char_length s <= n)%nat -> Pg.varchar n column (Some s) = inr (Some s).
Proof.
  intros H. unfold Pg.varchar. by destruct (Nat.leb_spec (Pg.char_length s) n); [|lia].
Qed.

Lemma wallet_param_fits v addr :
  Pg.bind_err (Pg.varchar 255 "wallet_address" v) (Pg.not_null "wallet_address") = inr addr ->
  (Pg.char_length addr <= 255)%nat.
Proof.
  destruct (Pg.varchar 255 "wallet_address" v) as [e|[s|]] eqn:E; simpl; try done.
  intros [= <-]. by apply varchar_fits in E.
Qed.

Lemma checked_subscription_row_fits now i p1 p2 p3 p4 p5 p6 row :
  Sql.checked_subscription_row now i p1 p2 p3 p4 p5 p6 = inr row ->
  subscription_fits row.
Proof.
  intros H. apply checked_subscription_row_inr in H
    as (_ & _ & _ & _ & H1 & H2 & H3 & H4 & H5).
  repeat split; eapply varchar_fits; eassumption.
Qed.

Lemma timestamptz_present d pe : Pg.timestamptz d = inr pe -> pe <> None.
Proof.
  destruct d as [t|]; simpl; [|congruence].
  destruct (Pg.min_timestamp <=? t); congruence.
Qed.

(** ** What the handlers keep true of the database *)

Lemma NoDup_snoc {A : Type} (l : list A) (x : A) :
  List.NoDup l -> ~ In x l -> List.NoDup (l ++ [x]).
Proof.
  intros Hl Hx. apply (Permutation_NoDup (l := x :: l)).
  - apply Permutation_cons_append.
  - apply List.NoDup_cons; assumption.
Qed.

Section CreatedServer.

Variable retrieve : option string -> option stripe_subscription.
Variable zone : JS.TimeZone.
Variables jsNow pgNow : Z.

Local Abbreviation run session w :=
  (handleSubscriptionCreated retrieve zone jsNow pgNow session w).

(** The whole server state after a run: a run that returns has drawn one
    value from each sequence and stored the two rows; a run that throws
    has left the tables alone and moved the sequences forward at most. *)
Lemma handleSubscriptionCreated_srv session w :
  match fst (run session w) with
  | Ok _ =>
      exists sub cd period_end row addr,
        retrieve (subscription session) = Some sub /\
        JS.truthy (walletAddress sub session) = true /\
        session_customer_details session = Some cd /\
        Pg.timestamptz (periodEndDate zone jsNow sub) = inr period_end /\
        Sql.checked_subscription_row pgNow (subscriptions_id_seq (srv w))
          (customer sub) (sub_id sub) (id session) (email cd) (status sub)
          period_end = inr row /\
        Pg.bind_err (Pg.varchar 255 "wallet_address" (walletAddress sub session))
                    (Pg.not_null "wallet_address") = inr addr /\
        srv (snd (run session w)) =
          {| store :=
               {| subscriptions := subscriptions (store (srv w)) ++ [row];
                  subscription_wallets :=
                    subscription_wallets (store (srv w)) ++
                    [primary_link (subscription_wallets_id_seq (srv w))
                                  (subscriptions_id_seq (srv w)) addr pgNow] |};
             subscriptions_id_seq := subscriptions_id_seq (srv w) + 1;
             subscription_wallets_id_seq := subscription_wallets_id_seq (srv w) + 1 |}
  | Throw _ =>
      store (srv (snd (run session w))) = store (srv w) /\
      subscriptions_id_seq (srv w) <= subscriptions_id_seq (srv (snd (run session w))) /\
      subscription_wallets_id_seq (srv w) <=
        subscription_wallets_id_seq (srv (snd (run session w)))
  end.
Proof.
  walk_created retrieve zone jsNow session w ltac:(repeat split; simpl; lia).
  exists sub, cd, pe, row, addr.
  pose proof (checked_subscription_row_stages pgNow _ _ _ _ _ _ _ _ _ Hco Hcons).
  pose proof (wallet_param_stages _ _ _ Hwc Haddr). done.
Qed.


Lemma created_preserves_consistent session w :
  consistent (srv w) -> consistent (srv (snd (run session w))).
Proof.
  intros [C1 C2 C3 C4 C5 C6 [C7 C7'] C8 C9].
  pose proof (handleSubscriptionCreated_srv session w) as H.
  destruct (fst (run session w)).
  - destruct H as (sub & cd & pe & row & addr & _ & _ & _ & Hpe & Hrow & Haddr & ->).
    pose proof (checked_subscription_row_fits _ _ _ _ _ _ _ _ _ Hrow) as Hfit.
    apply checked_subscription_row_inr in Hrow as (Hid & Hend & _).
    apply timestamptz_present in Hpe. apply wallet_param_fits in Haddr.
    assert (forall l, In l (subscription_wallets (store (srv w))) ->
                      subscription_id l <> Some (subscriptions_id_seq (srv w))) as Hfresh.
    { intros l Hl E. destruct (C5 l Hl) as (r & Hr & Hr'). apply C1 in Hr.
      rewrite E in Hr'. injection Hr' as Hr'. lia. }
    split; simpl.
    + intros r [Hr|[<-|[]]]%in_app_or; [apply C1 in Hr|]; lia.
    + intros l [Hl|[<-|[]]]%in_app_or; [apply C2 in Hl|simpl]; lia.
    + rewrite map_app. apply NoDup_snoc; [done|]. simpl.
      intros (r & Hr & Hin)%in_map_iff. apply C1 in Hin. lia.
    + rewrite map_app. apply NoDup_snoc; [done|]. simpl.
      intros (l & Hl & Hin)%in_map_iff. apply C2 in Hin. lia.
    + intros l [Hl|[<-|[]]]%in_app_or.
      * destruct (C5 l Hl) as (r & Hr & Hr'). exists r. split; [|done].
        apply in_or_app. by left.
      * exists row. split; [apply in_or_app; right; by left|]. simpl. by rewrite Hid.
    + rewrite map_app. apply NoDup_snoc; [done|]. simpl.
      intros (l & Hl & Hin)%in_map_iff. injection Hl as Hl _.
      by apply (Hfresh l Hin).
    + split.
      * intros r [Hr|[<-|[]]]%in_app_or; auto.
      * intros l [Hl|[<-|[]]]%in_app_or; auto.
    + intros r [Hr|[<-|[]]]%in_app_or.
      * destruct (C8 r Hr) as (l & Hl & Hl'). exists l. split; [|done].
        apply in_or_app. by left.
      * eexists. split; [apply in_or_app; right; by left|]. simpl. by rewrite Hid.
    + intros r [Hr|[<-|[]]]%in_app_or; [by apply C9|]. by rewrite Hend.
  - destruct H as (Hs & H1 & H2). split; rewrite ?Hs; try done.
    + intros r Hr. apply C1 in Hr. lia.
    + intros l Hl. apply C2 in Hl. lia.
Qed.

End CreatedServer.

Lemma update_set_cancelled_ids now cond rows :
  map s_id (Sql.update cond (Sql.set_cancelled now) rows) = map s_id rows.
Proof.
  unfold Sql.update. rewrite map_map. apply map_ext. intros r. by destruct (cond r).
Qed.

Lemma cancelled_preserves_consistent now ev w :
  consistent (srv w) -> consistent (srv (snd (handleSubscriptionCancelled now ev w))).
Proof.
  intros [C1 C2 C3 C4 C5 C6 [C7 C7'] C8 C9].
  rewrite handleSubscriptionCancelled_run. unfold Sql.update_subscription_cancelled.
  set (cond := fun r => Sql.eq_param (stripe_subscription_id r) (id ev)).
  assert (forall r, In r (subscriptions (store (srv w))) ->
            exists r', In r' (Sql.update cond (Sql.set_cancelled now)
                                (subscriptions (store (srv w)))) /\
                       s_id r' = s_id r) as Hfwd.
  { intros r Hr. exists (if cond r then Sql.set_cancelled now r else r). split.
    - unfold Sql.update.
      by apply (in_map (fun x => if cond x then Sql.set_cancelled now x else x)).
    - by destruct (cond r). }
  split; simpl; try done.
  - intros r' (r & Hr & [[_ ->]|[_ ->]])%update_In; exact (C1 r Hr).
  - by rewrite update_set_cancelled_ids.
  - intros l Hl. destruct (C5 l Hl) as (r & Hr & Hr').
    destruct (Hfwd r Hr) as (r' & Hin & Hid). exists r'. by rewrite Hid.
  - split; [|done].
    intros r' (r & Hr & [[_ ->]|[_ ->]])%update_In; [|by apply C7].
    destruct (C7 r Hr) as (? & ? & ? & ? & ?). repeat split; simpl; try done. lia.
  - intros r' (r & Hr & [[_ ->]|[_ ->]])%update_In; exact (C8 r Hr).
  - intros r' (r & Hr & [[_ ->]|[_ ->]])%update_In; exact (C9 r Hr).
Qed.

Section WebhookServer.

Variable constructEvent : body_value -> option string -> option string -> option stripe_event.
Variable webhookSecret : option string.
Variable zone : JS.TimeZone.

Lemma stripe_webhook_world retrieve jsNow pgNow req w :
  snd (stripe_webhook retrieve constructEvent webhookSecret zone jsNow pgNow req w) = w \/
  (exists session,
     snd (stripe_webhook retrieve constructEvent webhookSecret zone jsNow pgNow req w) =
     snd (handleSubscriptionCreated retrieve zone jsNow pgNow session w)) \/
  (exists ev,
     snd (stripe_webhook retrieve constructEvent webhookSecret zone jsNow pgNow req w) =
     snd (handleSubscriptionCancelled pgNow ev w)).
Proof.
  destruct (constructEvent (req_body req) (stripe_signature req) webhookSecret)
    as [event|] eqn:E.
  - rewrite (stripe_webhook_verified _ _ _ _ _ _ _ _ _ E). unfold reconcile.
    destruct (String.eqb _ _).
    { right. left. exists (data_object event).
      by destruct (handleSubscriptionCreated _ _ _ _ _ _) as [[]]. }
    destruct (String.eqb _ _).
    { right. right. exists (data_object event).
      by destruct (handleSubscriptionCancelled _ _ _) as [[]]. }
    by left.
  - left. unfold stripe_webhook. by rewrite E.
Qed.

Lemma stripe_webhook_preserves_consistent retrieve jsNow pgNow req w :
  consistent (srv w) ->
  consistent
    (srv (snd (stripe_webhook retrieve constructEvent webhookSecret zone jsNow pgNow req w))).
Proof.
  intros C. destruct (stripe_webhook_world retrieve jsNow pgNow req w)
    as [->|[[s ->]|[ev ->]]].
  - done.
  - by apply created_preserves_consistent.
  - by apply cancelled_preserves_consistent.
Qed.

(** X5. Any sequence of webhook deliveries, whatever they carry,
    whatever the verifier accepts and however each ends, keeps the
    database consistent: keys unique and below the sequences, every
    Wallet Link naming an existing subscription, no (subscription,
    wallet) pair twice, every text value within the width of its
    column counted in characters (a value of 100 three-byte characters
    fits [VARCHAR(255)]), every subscription with a primary Wallet Link
    and a period end. *)
Theorem serve_webhooks_preserves_consistent ds w :
  consistent (srv w) ->
  consistent (srv (serve_webhooks constructEvent webhookSecret zone ds w)).
Proof.
  revert w. induction ds as [|d ds IH]; intros w C; simpl; [done|].
  apply IH. by apply stripe_webhook_preserves_consistent.
Qed.

Lemma row_evolves_refl r : row_evolves r r.
Proof. unfold row_evolves. tauto. Qed.

Lemma row_evolves_trans a b c : row_evolves a b -> row_evolves b c -> row_evolves a c.
Proof.
  unfold row_evolves.
  intros (A1 & A2 & A3 & A4 & A5 & A6 & A7 & A8) (B1 & B2 & B3 & B4 & B5 & B6 & B7 & B8).
  repeat split; try congruence.
  destruct B8 as [B8|B8]; [|by right]. rewrite B8. exact A8.
Qed.

Lemma tables_evolve_refl t : tables_evolve t t.
Proof. split; [|done]. intros i r Hr. exists r. split; [done|apply row_evolves_refl]. Qed.

Lemma tables_evolve_trans a b c :
  tables_evolve a b -> tables_evolve b c -> tables_evolve a c.
Proof.
  intros [A1 A2] [B1 B2]. split.
  - intros i r Hr. destruct (A1 i r Hr) as (r' & Hr' & E1).
    destruct (B1 i r' Hr') as (r'' & Hr'' & E2). exists r''. split; [done|].
    by eapply row_evolves_trans.
  - intros i l Hl. by apply B2, A2.
Qed.

Lemma created_evolves retrieve jsNow pgNow session w :
  tables_evolve (store (srv w))
    (store (srv (snd (handleSubscriptionCreated retrieve zone jsNow pgNow session w)))).
Proof.
  pose proof (handleSubscriptionCreated_srv retrieve zone jsNow pgNow session w) as H.
  destruct (fst (handleSubscriptionCreated retrieve zone jsNow pgNow session w)).
  - destruct H as (sub & cd & pe & row & addr & _ & _ & _ & _ & _ & _ & ->). simpl.
    split.
    + intros i r Hr. exists r. split; [|apply row_evolves_refl].
      by apply lookup_app_l_Some.
    + intros i l Hl. by apply lookup_app_l_Some.
  - destruct H as (-> & _). apply tables_evolve_refl.
Qed.

Lemma cancelled_evolves now ev w :
  tables_evolve (store (srv w))
    (store (srv (snd (handleSubscriptionCancelled now ev w)))).
Proof.
  rewrite handleSubscriptionCancelled_store. split; simpl; [|done].
  intros i r Hr. rewrite update_lookup, Hr. simpl. eexists. split; [done|].
  destruct (Sql.eq_param _ _); [|apply row_evolves_refl].
  unfold row_evolves. simpl. tauto.
Qed.

Lemma stripe_webhook_evolves retrieve jsNow pgNow req w :
  tables_evolve (store (srv w))
    (store (srv (snd (stripe_webhook retrieve constructEvent webhookSecret zone
                        jsNow pgNow req w)))).
Proof.
  destruct (stripe_webhook_world retrieve jsNow pgNow req w)
    as [->|[[s ->]|[ev ->]]].
  - apply tables_evolve_refl.
  - apply created_evolves.
  - apply cancelled_evolves.
Qed.

(** X6. Through any sequence of webhook deliveries a stored subscription
    row is never deleted or moved: it keeps its key, its identifiers,
    its email, its period end and its creation time; its status either
    stays or becomes "cancelled", and a cancelled row stays cancelled.
    Wallet Link rows are never altered or removed. *)
Theorem serve_webhooks_lifecycle ds w (i : nat) (r : subscription_row) :
  subscriptions (store (srv w)) !! i = Some r ->
  (exists r' : subscription_row,
     subscriptions (store (srv (serve_webhooks constructEvent webhookSecret zone ds w))) !! i
       = Some r' /\
     row_evolves r r' /\
     (s_status r = "cancelled" -> s_status r' = "cancelled")) /\
  (forall (j : nat) (l : wallet_row),
     subscription_wallets (store (srv w)) !! j = Some l ->
     subscription_wallets
       (store (srv (serve_webhooks constructEvent webhookSecret zone ds w))) !! j = Some l).
Proof.
  assert (forall ds w, tables_evolve (store (srv w))
            (store (srv (serve_webhooks constructEvent webhookSecret zone ds w)))) as Hev.
  { clear. induction ds as [|d ds IH]; intros w; simpl; [apply tables_evolve_refl|].
    eapply tables_evolve_trans; [apply stripe_webhook_evolves|apply IH]. }
  intros Hr. destruct (Hev ds w) as [H1 H2]. split; [|exact H2].
  destruct (H1 i r Hr) as (r' & Hr' & E). exists r'.
  split; [done|]. split; [done|]. intros Hc. destruct E as (_ & _ & _ & _ & _ & _ & _ & [E|E]); congruence.
Qed.

End WebhookServer.

(** ** When a checkout completion is reconciled, and when it is not *)

Lemma existsb_none {A : Type} (f : A -> bool) (l : list A) :
  (forall x, In x l -> f x = false) -> existsb f l = false.
Proof.
  intros H. destruct (existsb f l) eqn:E; [|done].
  apply existsb_exists in E as (x & Hx & Hf). by rewrite (H x Hx) in Hf.
Qed.

Ltac settle_cases :=
  repeat split; intros;
  repeat match goal with
         | H : exists _, _ |- _ => destruct H
         | H : _ /\ _ |- _ => destruct H
         | H : _ \/ _ |- _ => destruct H
         end;
  subst; try congruence; eauto.

Section CreatedOutcome.

Variable retrieve : option string -> option stripe_subscription.
Variable zone : JS.TimeZone.
Variables jsNow pgNow : Z.

Local Abbreviation run session w :=
  (handleSubscriptionCreated retrieve zone jsNow pgNow session w).

(** The converse of [handleSubscriptionCreated_srv]: in a consistent
    database the keys drawn from the sequences are fresh, so a run whose
    lookup, wallet, customer details and column checks pass returns. *)
Lemma handleSubscriptionCreated_returns session sub cd period_end row addr w :
  consistent (srv w) ->
  retrieve (subscription session) = Some sub ->
  JS.truthy (walletAddress sub session) = true ->
  session_customer_details session = Some cd ->
  Pg.timestamptz (periodEndDate zone jsNow sub) = inr period_end ->
  Sql.checked_subscription_row pgNow (subscriptions_id_seq (srv w))
    (customer sub) (sub_id sub) (id session) (email cd) (status sub)
    period_end = inr row ->
  Pg.bind_err (Pg.varchar 255 "wallet_address" (walletAddress sub session))
              (Pg.not_null "wallet_address") = inr addr ->
  subscriptions_id_seq (srv w) <= Pg.max_serial ->
  subscription_wallets_id_seq (srv w) <= Pg.max_serial ->
  run session w =
  (Ok tt,
   {| srv :=
        {| store :=
             {| subscriptions := subscriptions (store (srv w)) ++ [row];
                subscription_wallets :=
                  subscription_wallets (store (srv w)) ++
                  [primary_link (subscription_wallets_id_seq (srv w))
                                (subscriptions_id_seq (srv w)) addr pgNow] |};
           subscriptions_id_seq := subscriptions_id_seq (srv w) + 1;
           subscription_wallets_id_seq := subscription_wallets_id_seq (srv w) + 1 |};
      conn := Idle |}).
Proof.
  intros [C1 C2 _ _ C5 _ _ _ _] Hr Hw Hcd Hpe Hrow Haddr Hseq Hwseq.
  apply Z.leb_le in Hseq, Hwseq.
  pose proof Hrow as (cs & Hco & Hcons)%checked_subscription_row_split.
  destruct (Pg.varchar 255 "wallet_address" (walletAddress sub session))
    as [?|c] eqn:Hwc; [done|]. simpl in Haddr.
  assert (existsb (fun r => s_id r =? subscriptions_id_seq (srv w))
                  (subscriptions (store (srv w))) = false) as E1.
  { apply existsb_none. intros r Hin. apply C1 in Hin. lia. }
  assert (existsb (fun r => w_id r =? subscription_wallets_id_seq (srv w))
                  (subscription_wallets (store (srv w))) = false) as E2.
  { apply existsb_none. intros l Hin. apply C2 in Hin. lia. }
  assert (existsb (Sql.same_link (subscriptions_id_seq (srv w)) addr)
                  (subscription_wallets (store (srv w))) = false) as E3.
  { apply existsb_none. intros l Hin. unfold Sql.same_link.
    destruct (subscription_id l) as [sid|] eqn:El; [|done].
    destruct (C5 l Hin) as (r & Hr' & Hid). apply C1 in Hr'.
    assert (sid = s_id r) as -> by congruence.
    destruct (Z.eqb_spec (s_id r) (subscriptions_id_seq (srv w))); [lia|done]. }
  assert (existsb (fun s => s_id s =? subscriptions_id_seq (srv w))
                  (subscriptions (store (srv w)) ++ [row]) = true) as E4.
  { rewrite existsb_app. simpl.
    apply checked_subscription_row_inr in Hrow as (-> & _).
    rewrite Z.eqb_refl. simpl. apply orb_true_r. }
  run_created. rewrite Hr. simpl. rewrite Hw. simpl. rewrite Hcd. simpl.
  unfold Sql.insert_subscription, Pg.nextval_subscriptions. simpl.
  rewrite Hpe. simpl. rewrite Hco. simpl. rewrite Hseq. simpl.
  rewrite Hcons, E1. simpl.
  unfold Sql.insert_subscription_wallet, Pg.nextval_subscription_wallets. simpl.
  rewrite Hwc. simpl. rewrite Hwseq. simpl. rewrite Haddr. simpl.
  rewrite E2. simpl. rewrite E3. simpl. rewrite E4. simpl. reflexivity.
Qed.

(** X7. In a consistent database whose two key sequences have not
    passed the last 4-byte key, a checkout completion is reconciled
    whenever the provider returns the subscription, a non-empty wallet
    address of at most 255 characters resolves, the session has
    customer details with an email, the identifiers, email and status
    are present and fit their columns (counted in characters), and the
    period end is a valid date that a timestamp column can hold. The
    store then holds exactly the old rows followed by the new
    subscription (key from the sequence, values as given, created and
    updated at the database time) and its primary Wallet Link; both
    sequences have advanced by one. *)
Theorem created_succeeds session sub cd addr c sid ssn em st pe w :
  consistent (srv w) ->
  subscriptions_id_seq (srv w) <= Pg.max_serial ->
  subscription_wallets_id_seq (srv w) <= Pg.max_serial ->
  retrieve (subscription session) = Some sub ->
  walletAddress sub session = Some addr ->
  addr <> "" -> (Pg.char_length addr <= 255)%nat ->
  session_customer_details session = Some cd ->
  customer sub = Some c -> (Pg.char_length c <= 255)%nat ->
  sub_id sub = Some sid -> (Pg.char_length sid <= 255)%nat ->
  id session = Some ssn -> (Pg.char_length ssn <= 255)%nat ->
  email cd = Some em -> (Pg.char_length em <= 255)%nat ->
  status sub = Some st -> (Pg.char_length st <= 50)%nat ->
  periodEndDate zone jsNow sub = Some pe ->
  Pg.min_timestamp <= pe ->
  run session w =
  (Ok tt,
   {| srv :=
        {| store :=
             {| subscriptions :=
                  subscriptions (store (srv w)) ++
                  [{| s_id := subscriptions_id_seq (srv w);
                      stripe_customer_id := c;
                      stripe_subscription_id := sid;
                      stripe_session_id := ssn;
                      customer_email := em;
                      s_status := st;
                      s_current_period_end := Some pe;
                      s_created_at := Some pgNow;
                      s_updated_at := Some pgNow |}];
                subscription_wallets :=
                  subscription_wallets (store (srv w)) ++
                  [{| w_id := subscription_wallets_id_seq (srv w);
                      subscription_id := Some (subscriptions_id_seq (srv w));
                      wallet_address := addr;
                      is_primary := Some true;
                      w_created_at := Some pgNow |}] |};
           subscriptions_id_seq := subscriptions_id_seq (srv w) + 1;
           subscription_wallets_id_seq := subscription_wallets_id_seq (srv w) + 1 |};
      conn := Idle |}).
Proof.
  intros C Hseq Hwseq Hr Ha Hne Hla Hcd Hc Hlc Hsid Hlsid Hssn Hlssn Hem Hlem
    Hst Hlst Hpe Hmin.
  apply (handleSubscriptionCreated_returns session sub cd (Some pe)); try done.
  - rewrite Ha. simpl. by destruct (String.eqb_spec addr "").
  - rewrite Hpe. simpl. by destruct (Z.leb_spec Pg.min_timestamp pe); [|lia].
  - rewrite Hc, Hsid, Hssn, Hem, Hst.
    unfold Sql.checked_subscription_row, Sql.coerced_subscription_params.
    rewrite !varchar_short by done. reflexivity.
  - rewrite Ha, varchar_short by done. reflexivity.
Qed.

(** X8. The three failures that happen before anything is sent to the
    database are told apart by the error thrown: the provider's error
    exactly when the lookup is rejected, the missing-wallet error
    exactly when the lookup succeeds and no address resolves, and a
    TypeError exactly when an address resolves but the session has no
    customer details (the email is read without a guard). In all three
    the server state, sequences included, is what it was. *)
Theorem created_early_failures session w :
  (fst (run session w) = Throw StripeError <->
   retrieve (subscription session) = None) /\
  (fst (run session w) = Throw MissingWallet <->
   exists sub, retrieve (subscription session) = Some sub /\
               JS.truthy (walletAddress sub session) = false) /\
  (fst (run session w) = Throw TypeError <->
   exists sub, retrieve (subscription session) = Some sub /\
               JS.truthy (walletAddress sub session) = true /\
               session_customer_details session = None) /\
  (forall e, fst (run session w) = Throw e ->
             e = StripeError \/ e = MissingWallet \/ e = TypeError ->
             srv (snd (run session w)) = srv w).
Proof.
  walk_created retrieve zone jsNow session w ltac:(settle_cases).
  settle_cases.
Qed.

End CreatedOutcome.

(** ** Redelivery, and the way from checkout to the status query *)

(** The column checks of the subscription insert do not depend on the
    key or on the database time. *)
Lemma checked_subscription_row_again now i now' i' p1 p2 p3 p4 p5 p6 row :
  Sql.checked_subscription_row now i p1 p2 p3 p4 p5 p6 = inr row ->
  exists row',
    Sql.checked_subscription_row now' i' p1 p2 p3 p4 p5 p6 = inr row' /\
    stripe_subscription_id row' = stripe_subscription_id row /\
    s_id row' = i'.
Proof.
  unfold Sql.checked_subscription_row, Sql.coerced_subscription_params,
    Sql.constrained_subscription_row.
  destruct (Pg.varchar 255 "stripe_customer_id" p1) as [?|[c1|]]; simpl; try discriminate.
  all: destruct (Pg.varchar 255 "stripe_subscription_id" p2) as [?|[c2|]];
    simpl; try discriminate.
  all: destruct (Pg.varchar 255 "stripe_session_id" p3) as [?|[c3|]];
    simpl; try discriminate.
  all: destruct (Pg.varchar 255 "customer_email" p4) as [?|[c4|]];
    simpl; try discriminate.
  all: destruct (Pg.varchar 50 "status" p5) as [?|[c5|]]; simpl; try discriminate.
  intros [= <-]. eexists. simpl. repeat split.
Qed.

(** X9. Creation is not idempotent. In a consistent database whose
    two key sequences have at least two keys left, when a checkout
    completion has been reconciled and the same event is delivered
    again (the provider and the application clock as before, at any
    database time), the second run succeeds as well and leaves a
    second subscription row with the same external subscription
    identifier under the next key, with its own Wallet Link for the
    same address. *)
Theorem redelivered_checkout_creates_duplicate retrieve zone jsNow pgNow pgNow' session w :
  consistent (srv w) ->
  subscriptions_id_seq (srv w) < Pg.max_serial ->
  subscription_wallets_id_seq (srv w) < Pg.max_serial ->
  fst (handleSubscriptionCreated retrieve zone jsNow pgNow session w) = Ok tt ->
  let first := handleSubscriptionCreated retrieve zone jsNow pgNow session w in
  let second := handleSubscriptionCreated retrieve zone jsNow pgNow' session (snd first) in
  fst second = Ok tt /\
  exists r1 r2 l1 l2,
    subscriptions (store (srv (snd second))) =
      subscriptions (store (srv w)) ++ [r1; r2] /\
    subscription_wallets (store (srv (snd second))) =
      subscription_wallets (store (srv w)) ++ [l1; l2] /\
    stripe_subscription_id r2 = stripe_subscription_id r1 /\
    s_id r2 = s_id r1 + 1 /\
    subscription_id l1 = Some (s_id r1) /\
    subscription_id l2 = Some (s_id r2) /\
    wallet_address l2 = wallet_address l1.
Proof.
  intros C Hlast Hwlast Hok. cbv zeta.
  pose proof (created_preserves_consistent retrieve zone jsNow pgNow session w C) as C'.
  pose proof (handleSubscriptionCreated_srv retrieve zone jsNow pgNow session w) as H.
  rewrite Hok in H.
  destruct H as (sub & cd & pe & row & addr & Hr & Hw & Hcd & Hpe & Hrow & Haddr & Hsrv).
  destruct (checked_subscription_row_again pgNow (subscriptions_id_seq (srv w))
              pgNow' (subscriptions_id_seq (srv w) + 1) _ _ _ _ _ _ _ Hrow)
    as (row' & Hrow' & Hext & Hid').
  set (w1 := snd (handleSubscriptionCreated retrieve zone jsNow pgNow session w)) in *.
  assert (subscriptions_id_seq (srv w1) = subscriptions_id_seq (srv w) + 1) as Hseq
    by (by rewrite Hsrv).
  rewrite <- Hseq in Hrow'.
  rewrite (handleSubscriptionCreated_returns retrieve zone jsNow pgNow' session sub cd pe
             row' addr w1 C' Hr Hw Hcd Hpe Hrow' Haddr);
    [|rewrite Hsrv; simpl; lia..].
  simpl. split; [done|]. rewrite Hsrv. simpl.
  apply checked_subscription_row_inr in Hrow as (Hid & _).
  eexists row, row', _, _. rewrite <- !app_assoc. simpl.
  repeat split; try done.
  - rewrite Hid', Hid. done.
  - simpl. by rewrite Hid.
  - simpl. by rewrite Hid'.
Qed.

(** X10. From checkout to status. In a consistent database where no
    active subscription is yet joined to a wallet, once a checkout
    completion has stored a subscription row and a Wallet Link for that
    wallet, the status endpoint answers for the wallet according to the
    new row alone: "none" unless the stored provider status is exactly
    "active"; otherwise entitled (with the row's period end and email)
    when the period end is a valid instant after the clock, and
    "expired" when it is not after the clock. *)
Theorem created_then_status retrieve zone jsNow pgNow session w now row link e :
  consistent (srv w) ->
  let w' := snd (handleSubscriptionCreated retrieve zone jsNow pgNow session w) in
  subscriptions (store (srv w')) = subscriptions (store (srv w)) ++ [row] ->
  subscription_wallets (store (srv w')) = subscription_wallets (store (srv w)) ++ [link] ->
  (forall r, ~ candidate (store (srv w)) (wallet_address link) r) ->
  s_current_period_end row = Some e ->
  (s_status row <> "active" ->
   fst (subscription_status now (wallet_address link) w') = Ok none_response) /\
  (s_status row = "active" -> now < e -> e <= JS.maxTime -> 0 <= now ->
   fst (subscription_status now (wallet_address link) w') = Ok (entitled_response row)) /\
  (s_status row = "active" -> e <= now ->
   fst (subscription_status now (wallet_address link) w') = Ok expired_response).
Proof.
  intros C w' Hsubs Hlinks Hnone He.
  pose proof (handleSubscriptionCreated_srv retrieve zone jsNow pgNow session w) as H.
  fold w' in H. destruct (fst (handleSubscriptionCreated _ _ _ _ _ _)).
  2:{ destruct H as (Hs & _). rewrite Hs in Hsubs.
      apply (f_equal (@length _)) in Hsubs. rewrite length_app in Hsubs.
      simpl in Hsubs. lia. }
  destruct H as (sub & cd & pe & row0 & addr & _ & _ & _ & _ & Hrow & _ & Hsrv).
  rewrite Hsrv in Hsubs, Hlinks. simpl in Hsubs, Hlinks.
  apply app_inj_tail in Hsubs as [_ ->]. apply app_inj_tail in Hlinks as [_ <-].
  apply checked_subscription_row_inr in Hrow as (Hid & _).
  destruct C as [C1 _ _ _ C5 _ _ _ _].
  assert (forall r', candidate (store (srv w')) addr r' -> r' = row) as Honly.
  { intros r' (Hin & (sw & Hsw & Hl1 & Hl2) & Hact).
    rewrite Hsrv in Hin, Hsw. simpl in Hin, Hsw.
    apply in_app_or in Hin as [Hin|[<-|[]]]; [|done]. exfalso.
    apply in_app_or in Hsw as [Hsw|[<-|[]]].
    - apply (Hnone r'). split; [done|]. split; [|done]. by exists sw.
    - simpl in Hl1. apply C1 in Hin. injection Hl1 as Hl1. lia. }
  assert (s_status row = "active" -> candidate (store (srv w')) addr row) as Hcand.
  { intros Hact. rewrite Hsrv. simpl. split; [apply in_or_app; right; by left|].
    split; [|done]. eexists. split; [apply in_or_app; right; by left|].
    simpl. by rewrite Hid. }
  simpl in *. split; [|split].
  - intros Hna. rewrite subscription_status_no_candidate; [done|].
    intros r' Hr'. pose proof (Honly r' Hr') as ->. by destruct Hr' as (_ & _ & ?).
  - intros Hact Hlt Hmax Hnow. rewrite subscription_status_run. simpl.
    destruct (order_by_created_at_desc_first
                (Sql.active_joined (store (srv w')) addr) row) as [tl ->].
    + by apply active_joined_In, Hcand.
    + intros r' Hr' Hne. apply active_joined_In in Hr'. by apply Honly in Hr'.
    + simpl. rewrite He.
      assert (JS.gt (JS.newDate_of_column (Some e)) (Some now) = true) as ->; [|done].
      apply gt_newDate_of_column. simpl. lia.
  - intros Hact Hle. rewrite subscription_status_run. simpl.
    destruct (order_by_created_at_desc_first
                (Sql.active_joined (store (srv w')) addr) row) as [tl ->].
    + by apply active_joined_In, Hcand.
    + intros r' Hr' Hne. apply active_joined_In in Hr'. by apply Honly in Hr'.
    + simpl. rewrite He. destruct (JS.gt _ _) eqn:E; [|done].
      apply gt_newDate_of_column in E. simpl in E. lia.
Qed.

(** ** What the mounted webhook does *)

(** X11. As [index.js] mounts it, the webhook reconciles nothing. With
    a verifier that accepts raw bytes only, whatever requests arrive,
    in whatever order, under either Express version and whatever the
    provider would return: every sender gets an answer, each answer is
    the handler's 400 or a 4xx or 5xx page of the final error handler,
    none is a 2xx, and at the end the database, sequences included, is
    what it was at the start. *)
Theorem mounted_webhook_reconciles_nothing
    constructEvent webhookSecret zone version statusCode arrivals w :
  verifies_raw_only constructEvent ->
  snd (serve_arrivals constructEvent webhookSecret zone version statusCode arrivals w) = w /\
  length (fst (serve_arrivals constructEvent webhookSecret zone version statusCode
                 arrivals w)) = length arrivals /\
  List.Forall
    (fun seen =>
       success seen = false /\
       (seen = Answered res_sendStatus_400 \/
        exists status, 400 <= status < 600 /\ seen = ErrorPage status))
    (fst (serve_arrivals constructEvent webhookSecret zone version statusCode arrivals w)).
Proof.
  intros Hraw. induction arrivals as [|a rest IH]; simpl.
  - repeat split. constructor.
  - destruct (post_stripe_webhook_refuses (a_retrieve a) constructEvent webhookSecret zone
                (a_jsNow a) (a_pgNow a) version statusCode
                (a_json_refuses a) (a_raw_refuses a) (a_delivery a) w Hraw)
      as [->|(status & _ & ->)];
      destruct (serve_arrivals _ _ _ _ _ rest w) as [later w'];
      simpl in IH; destruct IH as (-> & Hlen & Hall); simpl;
      (split; [done|]); (split; [by rewrite Hlen|]);
      constructor; try done.
    + split; [done|]. by left.
    + split; [apply (error_page_not_success (Some status))|].
      right. exists (finalhandler_status (Some status)).
      split; [apply finalhandler_status_range|done].
Qed.

(** ** The checkout route *)

(** X12. The checkout route asks the provider for a session only when
    the body carries a non-empty [walletAddress]: a body without one is
    answered 400 with no call made, an absent body 500 with no call
    made. Otherwise exactly one session is requested, in subscription
    mode, for one unit of the configured price, with the address as
    [wallet_address] in the subscription metadata; the answer is 200
    with the provider's session id, or 500 when the provider rejects. *)
Theorem create_checkout_session_answers price sessions_create req :
  let out := create_checkout_session price sessions_create req in
  (http_status (fst out) = 400 <->
   exists body, cr_body req = Some body /\ JS.truthy (body !! "walletAddress") = false) /\
  (cr_body req = None -> http_status (fst out) = 500 /\ snd out = []) /\
  (http_status (fst out) = 400 -> snd out = []) /\
  (forall body address,
     cr_body req = Some body -> body !! "walletAddress" = Some address ->
     address <> "" ->
     exists params,
       snd out = [params] /\
       mode params = "subscription" /\
       subscription_data_metadata params = {[ "wallet_address" := address ]} /\
       (exists p, line_items params = [{| li_price := p; li_quantity := 1 |}] /\
                  (forall v, price = Some v -> v <> "" -> p = v) /\
                  (JS.truthy price = false -> p = default_price)) /\
       fst out =
         match sessions_create params with
         | Some session_id => res_json (JObject [("sessionId", JString session_id)])
         | None => res_status_json 500 (JObject [("error", JString "Internal Server Error")])
         end).
Proof.
  unfold create_checkout_session. cbv zeta.
  destruct (cr_body req) as [body|].
  2:{ simpl. split; [split; [done|by intros (b & Hb & _)]|].
      split; [done|]. split; [done|]. by intros b a Hb. }
  destruct (body !! "walletAddress") as [a|] eqn:Ha.
  2:{ simpl. split; [split; [intros _; exists body; by rewrite Ha|done]|].
      split; [done|]. split; [done|]. intros b a' [= <-] Ha'. congruence. }
  simpl. destruct (String.eqb_spec a "") as [->|Hne]; simpl.
  - split; [split; [intros _; exists body; by rewrite Ha|done]|].
    split; [done|]. split; [done|]. intros b a' [= <-] Ha' Hne. congruence.
  - repeat split.
    + destruct (sessions_create _); simpl; discriminate.
    + intros (b & [= <-] & Hb). rewrite Ha in Hb. simpl in Hb.
      by destruct (String.eqb_spec a "").
    + done.
    + done.
    + destruct (sessions_create _); simpl; discriminate.
    + intros b a' [= <-] Ha' _. rewrite Ha in Ha'. injection Ha' as <-.
      eexists. split; [by destruct (sessions_create _)|].
      repeat split.
      * eexists. split; [reflexivity|]. split.
        -- intros v -> Hv. simpl. by destruct (String.eqb_spec v "").
        -- by intros ->.
      * by destruct (sessions_create _).
Qed.

(** X13. The address a visitor gives at checkout is the address that
    reconciliation links: when the provider's subscription object
    carries the metadata the checkout route sent, wallet resolution
    returns that address, whatever the session itself carries. *)
Theorem checkout_wallet_is_resolved price sessions_create req body address
    params sub session :
  cr_body req = Some body ->
  body !! "walletAddress" = Some address ->
  In params (snd (create_checkout_session price sessions_create req)) ->
  sub_metadata sub = Some (subscription_data_metadata params) ->
  address <> "" /\ walletAddress sub session = Some address.
Proof.
  unfold create_checkout_session. cbv zeta. intros -> ->. simpl.
  destruct (String.eqb_spec address "") as [->|Hne]; simpl; [by intros []|].
  intros Hin Hmeta. split; [done|].
  assert (subscription_data_metadata params = {[ "wallet_address" := address ]}) as E.
  { destruct (sessions_create _); destruct Hin as [<-|[]]; reflexivity. }
  unfold walletAddress. rewrite Hmeta, E. simpl.
  clear Hin. rewrite lookup_singleton_eq. simpl.
  apply String.eqb_neq in Hne. rewrite Hne. simpl. by rewrite Hne.
Qed.

(** ** Order of delivery *)


Lemma update_cancelled_commute now1 now2 p1 p2 rows :
  p1 <> p2 ->
  Sql.update (fun r => Sql.eq_param (stripe_subscription_id r) p2) (Sql.set_cancelled now2)
    (Sql.update (fun r => Sql.eq_param (stripe_subscription_id r) p1)
                (Sql.set_cancelled now1) rows) =
  Sql.update (fun r => Sql.eq_param (stripe_subscription_id r) p1) (Sql.set_cancelled now1)
    (Sql.update (fun r => Sql.eq_param (stripe_subscription_id r) p2)
                (Sql.set_cancelled now2) rows).
Proof.
  intros Hne. unfold Sql.update. rewrite !map_map. apply map_ext. intros r.
  destruct (Sql.eq_param (stripe_subscription_id r) p1) eqn:E1;
    destruct (Sql.eq_param (stripe_subscription_id r) p2) eqn:E2;
    simpl; rewrite ?E1, ?E2; try done.
  apply eq_param_spec in E1, E2. congruence.
Qed.

(** X14. Cancellations of different external identifiers commute: in
    either order of delivery, each at its own database time, they leave
    the same database. *)
Theorem cancellations_commute now1 now2 ev1 ev2 w :
  id ev1 <> id ev2 ->
  snd (handleSubscriptionCancelled now2 ev2 (snd (handleSubscriptionCancelled now1 ev1 w))) =
  snd (handleSubscriptionCancelled now1 ev1 (snd (handleSubscriptionCancelled now2 ev2 w))).
Proof.
  intros Hne. rewrite !handleSubscriptionCancelled_run.
  unfold Sql.update_subscription_cancelled. simpl.
  by rewrite (update_cancelled_commute now1 now2 (id ev1) (id ev2)).
Qed.


Lemma linked_to_other_address addr s l :
  wallet_address l <> addr -> Sql.linked_to addr s l = false.
Proof.
  intros H. destruct (Sql.linked_to addr s l) eqn:E; [|done].
  apply linked_to_spec in E as [_ E]. done.
Qed.

Lemma active_joined_appended subs ws row link addr :
  (forall l, In l ws -> subscription_id l <> Some (s_id row)) ->
  wallet_address link <> addr ->
  Sql.active_joined
    {| subscriptions := subs ++ [row]; subscription_wallets := ws ++ [link] |} addr =
  Sql.active_joined {| subscriptions := subs; subscription_wallets := ws |} addr.
Proof.
  intros Hfresh Hother. unfold Sql.active_joined. simpl.
  rewrite (flat_map_ext _
             (fun s => flat_map
                (fun sw => if Sql.linked_to addr s sw && String.eqb (s_status s) "active"
                           then [s] else []) ws)).
  2:{ intros s. rewrite flat_map_app. simpl.
      rewrite linked_to_other_address by done. simpl. by rewrite app_nil_r. }
  rewrite flat_map_app. simpl.
  rewrite (flat_map_unlinked addr row _ row ws), !app_nil_r; [done|].
  intros l Hl. destruct (Sql.linked_to addr row l) eqn:E; [|done].
  apply linked_to_spec in E as [E _]. by destruct (Hfresh l Hl).
Qed.

(** X16. Reconciling a checkout completion changes nothing for other
    wallets: in a consistent database, whatever the run does, the
    status endpoint answers as before for every address other than the
    one the run has linked. *)
Theorem checkout_leaves_other_wallets retrieve zone jsNow pgNow session w now addr :
  consistent (srv w) ->
  let w' := snd (handleSubscriptionCreated retrieve zone jsNow pgNow session w) in
  (forall link, subscription_wallets (store (srv w')) =
                  subscription_wallets (store (srv w)) ++ [link] ->
                wallet_address link <> addr) ->
  fst (subscription_status now addr w') = fst (subscription_status now addr w).
Proof.
  intros C w' Hother. rewrite !subscription_status_run. cbn [fst].
  pose proof (handleSubscriptionCreated_srv retrieve zone jsNow pgNow session w) as H.
  fold w' in H. destruct (fst (handleSubscriptionCreated _ _ _ _ _ _)).
  2:{ destruct H as (-> & _). done. }
  destruct H as (sub & cd & pe & row & addr0 & _ & _ & _ & _ & Hrow & _ & Hsrv).
  specialize (Hother (primary_link (subscription_wallets_id_seq (srv w))
                        (subscriptions_id_seq (srv w)) addr0 pgNow)).
  rewrite Hsrv in *. simpl in *. specialize (Hother eq_refl).
  apply checked_subscription_row_inr in Hrow as (Hid & _).
  destruct C as [C1 _ _ _ C5 _ _ _ _].
  rewrite active_joined_appended; [by destruct (store (srv w))| |done].
  intros l Hl E. destruct (C5 l Hl) as (r & Hr & Hr'). apply C1 in Hr.
  rewrite E, Hid in Hr'. injection Hr' as Hr'. lia.
Qed.

(** * The scenario, run *)

Import Scenario.


(** The second insert refused: the subscription row written by the
    first insert does not persist; only the sequence of the first
    insert has moved. *)
Example wallet_insert_refused_rolls_back :
  handleSubscriptionCreated retrieve_long_wallet zone jsNow pgNow session empty_world =
  (Throw (PgError (string_data_right_truncation "wallet_address")),
   {| srv := {| store := {| subscriptions := []; subscription_wallets := [] |};
                subscriptions_id_seq := 2;
                subscription_wallets_id_seq := 1 |};
      conn := Idle |}).
Proof. vm_compute. reflexivity. Qed.

(** A wallet address of 100 characters in 300 bytes is stored. *)
Example wide_wallet_is_stored :
  (String.length wide_wallet, Pg.char_length wide_wallet) = (300%nat, 100%nat) /\
  fst (handleSubscriptionCreated retrieve_wide_wallet zone jsNow pgNow session
         empty_world) = Ok tt /\
  map wallet_address
    (subscription_wallets (store (srv (snd
       (handleSubscriptionCreated retrieve_wide_wallet zone jsNow pgNow session
          empty_world))))) = [wide_wallet].
Proof. vm_compute. repeat split. Qed.

(** A period end of [0] does not pass the handler's test and gives the
    thirty-day default. *)
Example zero_period_end_defaults :
  periodEndDate zone jsNow subscription_with_zero_period_end =
  Some (jsNow + 30 * JS.msPerDay).
Proof. vm_compute. reflexivity. Qed.

(** Without a period end from the provider the reconciliation goes
    through and stores the default. *)
Example missing_period_end_defaults :
  handleSubscriptionCreated retrieve_without_period_end zone jsNow pgNow session
    empty_world =
  (Ok tt,
   {| srv := {| store :=
                  {| subscriptions :=
                       [{| s_id := 1;
                           stripe_customer_id := "cus_1";
                           stripe_subscription_id := "sub_1";
                           stripe_session_id := "cs_1";
                           customer_email := "a@b.com";
                           s_status := "active";
                           s_current_period_end := Some (jsNow + 30 * JS.msPerDay);
                           s_created_at := Some pgNow;
                           s_updated_at := Some pgNow |}];
                     subscription_wallets := [stored_link] |};
                subscriptions_id_seq := 2;
                subscription_wallets_id_seq := 2 |};
      conn := Idle |}).
Proof. vm_compute. reflexivity. Qed.

(** Where the clocks go forward within the thirty days, the default is
    an hour short of 30 * 24 hours. *)
Example default_across_clock_change :
  periodEndDate clocks_forward jsNow subscription_without_period_end =
  Some (jsNow + 30 * JS.msPerDay - 3600000).
Proof. vm_compute. reflexivity. Qed.

Example entitled_before_period_end :
  fst (subscription_status jsNow "0xABC" after_checkout) =
  Ok (entitled_response stored_subscription).
Proof. vm_compute. reflexivity. Qed.

Example unknown_wallet_has_none :
  fst (subscription_status jsNow "0x000" after_checkout) = Ok none_response.
Proof. vm_compute. reflexivity. Qed.

Example duplicates_cancelled_together :
  map s_status
    (subscriptions (store (srv (snd
       (handleSubscriptionCancelled (pgNow + 20) cancellation with_duplicates))))) =
  ["cancelled"; "cancelled"; "active"].
Proof. vm_compute. reflexivity. Qed.

(** The scenario's verifier accepts raw bytes only. *)
Lemma constructEvent_verifies_raw_only : verifies_raw_only constructEvent.
Proof.
  intros body sig secret Hnot. destruct body as [| |bytes]; try reflexivity.
  destruct (Hnot bytes eq_refl).
Defined.

(** Handed the raw bytes, the handler reconciles the checkout
    completion; arriving at the route as it is mounted, the same
    delivery is answered 400 and nothing is stored. *)
Example handler_reconciles_raw_delivery :
  stripe_webhook retrieve constructEvent webhookSecret zone jsNow pgNow delivery
    empty_world =
  (Ok received_response, after_checkout).
Proof. vm_compute. reflexivity. Qed.

Example mounted_route_refuses_delivery :
  post_stripe_webhook retrieve constructEvent webhookSecret zone jsNow pgNow
    Express5 statusCode reads_all reads_all arriving empty_world =
  (Answered res_sendStatus_400, empty_world).
Proof. vm_compute. reflexivity. Qed.

(** ** The theorems at the scenario *)

Lemma stale_active_row_reported_expired_witness :
  fst (subscription_status after_period_end "0xABC" after_checkout) =
  Ok expired_response.
Proof.
  apply (stale_active_row_reported_expired after_period_end "0xABC" after_checkout
           stored_subscription pgNow 1900000000000).
  - simpl. left. reflexivity.
  - exists stored_link. simpl. repeat split. left. reflexivity.
  - reflexivity.
  - reflexivity.
  - intros r' Hr' _ Hne. simpl in Hr'. destruct Hr' as [Hr'|[]].
    symmetry in Hr'. contradiction.
  - reflexivity.
  - unfold after_period_end. lia.
Defined.

Lemma wallet_resolution_priority_witness :
  walletAddress provider_subscription session_with_other_wallet = Some "0xABC".
Proof.
  apply (wallet_resolution_priority provider_subscription session_with_other_wallet)
    with (y := "0xDEF").
  - vm_compute. reflexivity.
  - vm_compute. reflexivity.
  - discriminate.
  - discriminate.
Defined.

Lemma missing_wallet_aborts_witness :
  fst (handleSubscriptionCreated retrieve_without_wallet zone jsNow pgNow session after_checkout)
    = Throw MissingWallet /\
  srv (snd (handleSubscriptionCreated retrieve_without_wallet zone jsNow pgNow session
              after_checkout)) = srv after_checkout.
Proof.
  pose proof (missing_wallet_aborts retrieve_without_wallet zone jsNow pgNow session
                subscription_without_wallet after_checkout) as H.
  destruct H as (H1 & H2 & _).
  - reflexivity.
  - vm_compute. reflexivity.
  - vm_compute. reflexivity.
  - vm_compute. reflexivity.
  - split; assumption.
Defined.

Lemma cancellation_idempotent_witness :
  exists r2,
    subscriptions (store (srv (snd
      (handleSubscriptionCancelled (pgNow + 40) cancellation
         (snd (handleSubscriptionCancelled (pgNow + 20) cancellation after_checkout))))))
      !! 0%nat = Some r2 /\
    s_id r2 = 1 /\ s_status r2 = "cancelled".
Proof.
  pose proof (cancellation_idempotent (pgNow + 20) (pgNow + 40) cancellation
                after_checkout 0%nat stored_subscription) as H.
  destruct H as (_ & _ & _ & H & _).
  - reflexivity.
  - reflexivity.
  - reflexivity.
  - exact H.
Defined.

Lemma cancellation_unknown_is_noop_witness :
  handleSubscriptionCancelled (pgNow + 20) unknown_cancellation after_checkout =
  (Ok tt, after_checkout).
Proof.
  apply (cancellation_unknown_is_noop (pgNow + 20) unknown_cancellation after_checkout).
  intros r Hr. simpl in Hr. destruct Hr as [<-|[]]. discriminate.
Defined.

Lemma created_period_end_witness :
  periodEndDate zone jsNow subscription_without_period_end =
    Some (jsNow + 30 * JS.msPerDay) /\
  Pg.timestamptz (periodEndDate zone jsNow subscription_without_period_end) =
    inr (Some (jsNow + 30 * JS.msPerDay)) /\
  exists s,
    subscriptions (store (srv (snd
      (handleSubscriptionCreated retrieve_without_period_end zone jsNow pgNow session
         empty_world)))) = [s] /\
    s_current_period_end s = Some (jsNow + 30 * JS.msPerDay).
Proof.
  destruct (created_period_end retrieve_without_period_end zone jsNow pgNow session
              subscription_without_period_end empty_world)
    as (H1 & _ & H3 & H4 & _ & H6 & H7).
  - reflexivity.
  - assert (thirty_days_later zone jsNow = jsNow + 30 * JS.msPerDay) as Hd.
    { apply (H4 0); reflexivity. }
    assert (period_end_policy zone jsNow
              (current_period_end subscription_without_period_end) =
            jsNow + 30 * JS.msPerDay) as Hp.
    { rewrite H3; [exact Hd | reflexivity]. }
    rewrite Hp in H1, H6, H7. split; [|split].
    + rewrite H1. reflexivity.
    + apply H6; vm_compute; discriminate.
    + destruct (H7 tt) as (s & Hs & He & _).
      * vm_compute. reflexivity.
      * exists s. split; [exact Hs | exact He].
Defined.


Lemma cancellation_frame_witness :
  subscriptions (store (srv (snd
    (handleSubscriptionCancelled (pgNow + 20) cancellation with_duplicates))))
    !! 2%nat = Some other_subscription.
Proof.
  apply (cancellation_frame (pgNow + 20) cancellation with_duplicates).
  - reflexivity.
  - discriminate.
Defined.

Lemma entitlement_comparison_strict_witness :
  fst (subscription_status at_period_end "0xABC" after_checkout) = Ok expired_response.
Proof.
  destruct (entitlement_comparison_strict at_period_end "0xABC" after_checkout
              stored_subscription) as (_ & _ & H & _).
  - unfold at_period_end. lia.
  - vm_compute. reflexivity.
  - apply H. reflexivity.
Defined.

(** ** The further properties at the scenario *)

Lemma empty_world_consistent : consistent (srv empty_world).
Proof.
  split; simpl; try (intros ? []); try constructor; intros ? [].
Qed.


Example checkout_requests_session :
  create_checkout_session None CheckoutScenario.sessions_create CheckoutScenario.checkout =
  (res_json (JObject [("sessionId", JString "cs_1")]), [CheckoutScenario.requested]).
Proof. vm_compute. reflexivity. Qed.

Lemma selected_row_is_latest_candidate_witness :
  candidate (store (srv after_checkout)) "0xABC" stored_subscription.
Proof.
  destruct (selected_row_is_latest_candidate "0xABC" after_checkout
              stored_subscription []) as (_ & _ & H & _).
  - vm_compute. reflexivity.
  - exact H.
Defined.

Lemma status_none_iff_no_candidate_witness :
  subscription_status_over jsNow unanswered "0xABC" after_checkout =
    (Ok internal_error_response, after_checkout) /\
  fst (subscription_status jsNow "0x000" after_checkout) = Ok none_response.
Proof.
  split.
  - destruct (status_none_iff_no_candidate unanswered jsNow "0xABC" after_checkout)
      as (_ & H & _).
    apply (H (PgError connection_failure)). reflexivity.
  - destruct (status_none_iff_no_candidate Sql.select_active_subscription jsNow "0x000"
                after_checkout) as (_ & _ & _ & H).
    destruct (H eq_refl) as [[_ Hnone] _]. apply Hnone.
    intros r (_ & (sw & Hsw & _ & Haddr) & _). simpl in Hsw.
    destruct Hsw as [<-|[]]. discriminate Haddr.
Defined.

Lemma cancelled_wallet_reports_none_witness :
  fst (subscription_status jsNow "0xABC"
         (snd (handleSubscriptionCancelled (pgNow + 20) cancellation after_checkout))) =
  Ok none_response.
Proof.
  apply (cancelled_wallet_reports_none (pgNow + 20) jsNow cancellation "sub_1" "0xABC"
           after_checkout).
  - reflexivity.
  - intros r (Hr & _). simpl in Hr. destruct Hr as [<-|[]]. reflexivity.
Defined.

Lemma cancellation_leaves_other_wallets_witness :
  fst (subscription_status jsNow "0xABC"
         (snd (handleSubscriptionCancelled (pgNow + 20) unknown_cancellation
                 after_checkout))) =
  fst (subscription_status jsNow "0xABC" after_checkout).
Proof.
  apply (cancellation_leaves_other_wallets (pgNow + 20) jsNow unknown_cancellation
           "0xABC" after_checkout).
  intros r Hr _. simpl in Hr. destruct Hr as [<-|[]]. discriminate.
Defined.

Lemma serve_webhooks_preserves_consistent_witness :
  consistent
    (srv (serve_webhooks constructEvent webhookSecret zone
            [{| d_request := delivery; d_retrieve := retrieve;
                d_jsNow := jsNow; d_pgNow := pgNow |};
             {| d_request := delivery; d_retrieve := retrieve_wide_wallet;
                d_jsNow := jsNow + 60000; d_pgNow := pgNow + 60000 |}]
            empty_world)).
Proof.
  apply (serve_webhooks_preserves_consistent constructEvent webhookSecret zone).
  exact empty_world_consistent.
Defined.

Lemma serve_webhooks_lifecycle_witness :
  exists r',
    subscriptions
      (store (srv (serve_webhooks constructEvent webhookSecret zone
                     [{| d_request := delivery; d_retrieve := retrieve;
                         d_jsNow := jsNow + 60000; d_pgNow := pgNow + 60000 |}]
                     after_checkout))) !! 0%nat = Some r' /\
    row_evolves stored_subscription r'.
Proof.
  destruct (serve_webhooks_lifecycle constructEvent webhookSecret zone
              [{| d_request := delivery; d_retrieve := retrieve;
                  d_jsNow := jsNow + 60000; d_pgNow := pgNow + 60000 |}]
              after_checkout 0%nat stored_subscription) as ((r' & H1 & H2 & _) & _).
  - reflexivity.
  - exists r'. split; [exact H1 | exact H2].
Defined.

Lemma created_succeeds_witness :
  fst (handleSubscriptionCreated retrieve zone jsNow pgNow session empty_world) = Ok tt.
Proof.
  rewrite (created_succeeds retrieve zone jsNow pgNow session provider_subscription
             {| email := Some "a@b.com"; cd_metadata := None |}
             "0xABC" "cus_1" "sub_1" "cs_1" "a@b.com" "active" 1900000000000
             empty_world).
  - reflexivity.
  - exact empty_world_consistent.
  - vm_compute. discriminate.
  - vm_compute. discriminate.
  - reflexivity.
  - vm_compute. reflexivity.
  - discriminate.
  - vm_compute. lia.
  - reflexivity.
  - reflexivity.
  - vm_compute. lia.
  - reflexivity.
  - vm_compute. lia.
  - reflexivity.
  - vm_compute. lia.
  - reflexivity.
  - vm_compute. lia.
  - reflexivity.
  - vm_compute. lia.
  - vm_compute. reflexivity.
  - vm_compute. discriminate.
Defined.

Lemma redelivered_checkout_creates_duplicate_witness :
  fst (handleSubscriptionCreated retrieve zone jsNow (pgNow + 60000) session
         (snd (handleSubscriptionCreated retrieve zone jsNow pgNow session empty_world))) =
  Ok tt.
Proof.
  destruct (redelivered_checkout_creates_duplicate retrieve zone jsNow pgNow (pgNow + 60000)
              session empty_world) as [H _].
  - exact empty_world_consistent.
  - vm_compute. reflexivity.
  - vm_compute. reflexivity.
  - vm_compute. reflexivity.
  - exact H.
Defined.

Lemma created_then_status_witness :
  fst (subscription_status jsNow "0xABC"
         (snd (handleSubscriptionCreated retrieve zone jsNow pgNow session empty_world))) =
  Ok (entitled_response stored_subscription).
Proof.
  destruct (created_then_status retrieve zone jsNow pgNow session empty_world jsNow
              stored_subscription stored_link 1900000000000) as (_ & H & _).
  - exact empty_world_consistent.
  - vm_compute. reflexivity.
  - vm_compute. reflexivity.
  - intros r (Hr & _). simpl in Hr. exact Hr.
  - reflexivity.
  - apply H.
    + reflexivity.
    + unfold jsNow. lia.
    + unfold JS.maxTime. lia.
    + unfold jsNow. lia.
Defined.

Lemma mounted_webhook_reconciles_nothing_witness :
  snd (serve_arrivals constructEvent webhookSecret zone Express4 statusCode
         [{| a_delivery := arriving; a_retrieve := retrieve;
             a_jsNow := jsNow; a_pgNow := pgNow;
             a_json_refuses := reads_all; a_raw_refuses := reads_all |};
          {| a_delivery := arriving; a_retrieve := retrieve;
             a_jsNow := jsNow + 60000; a_pgNow := pgNow + 60000;
             a_json_refuses := reads_all; a_raw_refuses := reads_all |}]
         empty_world) = empty_world.
Proof.
  apply (mounted_webhook_reconciles_nothing constructEvent webhookSecret zone Express4
           statusCode).
  exact constructEvent_verifies_raw_only.
Defined.

Lemma checkout_wallet_is_resolved_witness :
  walletAddress provider_subscription session_with_other_wallet = Some "0xABC".
Proof.
  destruct (checkout_wallet_is_resolved None CheckoutScenario.sessions_create
              CheckoutScenario.checkout {[ "walletAddress" := "0xABC" ]} "0xABC"
              CheckoutScenario.requested provider_subscription
              session_with_other_wallet) as [_ H].
  - reflexivity.
  - vm_compute. reflexivity.
  - rewrite checkout_requests_session. left. reflexivity.
  - reflexivity.
  - exact H.
Defined.

Lemma cancellations_commute_witness :
  snd (handleSubscriptionCancelled (pgNow + 40) unknown_cancellation
         (snd (handleSubscriptionCancelled (pgNow + 20) cancellation with_duplicates))) =
  snd (handleSubscriptionCancelled (pgNow + 20) cancellation
         (snd (handleSubscriptionCancelled (pgNow + 40) unknown_cancellation
                 with_duplicates))).
Proof.
  apply (cancellations_commute (pgNow + 20) (pgNow + 40) cancellation
           unknown_cancellation with_duplicates).
  discriminate.
Defined.


Lemma checkout_leaves_other_wallets_witness :
  fst (subscription_status jsNow "0xDEF"
         (snd (handleSubscriptionCreated retrieve zone jsNow pgNow session empty_world))) =
  fst (subscription_status jsNow "0xDEF" empty_world).
Proof.
  apply (checkout_leaves_other_wallets retrieve zone jsNow pgNow session empty_world jsNow
           "0xDEF").
  - exact empty_world_consistent.
  - intros link H. vm_compute in H. injection H as <-. discriminate.
Defined.
